(** * Tax planner: contribution optimizer, quarterly estimates, projections

    A shallow embedding of the computations of the tax-planner front end
    (React components and pages) and of the calculation engine they call,
    together with the properties stated for them.  The front end is
    embedded from its sources; the engine runs on the server, its code is
    not among the sources, and it is modelled from its specification
    (module [Engine]).

    Numbers.  The program computes with JavaScript numbers.  Amounts,
    percentages, ages and pay-period counts are embedded as exact rationals
    ([Q], compared with [==]); the rounding of binary floating point is not
    part of the model.  Where the program tests a number for [NaN]
    (the amount typed into the mark-paid field) the embedding uses
    [JsNumber], which adds [NaN] and the two infinities. *)

From stdpp Require Import base list strings gmap sorting.
From Stdlib Require Import Ascii String ZArith QArith Qminmax Qround Qabs Qpower Lqa Lia.

#[local] Open Scope Q_scope.

(* ===================================================================== *)
(** * Part I: definitions                                                *)
(* ===================================================================== *)

(** ** [components/ContributionSlider.tsx] *)

Module ContributionSlider.

(** [interface ContributionSliderProps]; the two optional properties are
    [option]s, their defaults are applied by the component. *)
Record ContributionSliderProps : Type := {
  annualSalary : Q;
  currentPercent : Q;
  ytdContribution : Q;
  remainingPayPeriods : Q;
  recommendedPercent : Q;
  maxContribution : option Q;
  catchUpEligible : option bool;
}.

(** One element of the array built by [calculateProjection]. *)
Record ProjectionPoint : Type := {
  payPeriod : Z;
  contribution : Q;
  max : Q;
}.

Section Component.
Variable props : ContributionSliderProps.

(** Destructuring defaults: [maxContribution = 23500],
    [catchUpEligible = false]. *)
Definition maxContributionOrDefault : Q :=
  default 23500 (maxContribution props).

Definition catchUpEligibleOrDefault : bool :=
  default false (catchUpEligible props).

(** [const effectiveMax = catchUpEligible ? maxContribution + 7500
                                          : maxContribution] *)
Definition effectiveMax : Q :=
  if catchUpEligibleOrDefault
  then maxContributionOrDefault + 7500
  else maxContributionOrDefault.

Definition perPayPeriodSalary : Q := annualSalary props / 26.

Definition perPayPeriodContribution (contributionPercent : Q) : Q :=
  (perPayPeriodSalary * contributionPercent) / 100.

(** The [for (let i = 0; i <= remainingPayPeriods; i++)] loop of
    [calculateProjection], from the loop state [(i, projected)];
    [fuel] bounds the number of iterations. *)
Fixpoint projectionLoop (contributionPercent : Q) (fuel : nat)
    (i : Z) (projected : Q) : list ProjectionPoint :=
  match fuel with
  | O => []
  | S fuel' =>
      if Qle_bool (inject_Z i) (remainingPayPeriods props) then
        {| payPeriod := i;
           contribution := Qmin projected effectiveMax;
           max := effectiveMax |}
        :: projectionLoop contributionPercent fuel' (i + 1)
             (projected + perPayPeriodContribution contributionPercent)
      else []
  end.

(** The loop test fails for the first time at
    [i = floor remainingPayPeriods + 1] (at [i = 0] when
    [remainingPayPeriods] is negative). *)
Definition loopBound : nat :=
  Z.to_nat (Qfloor (remainingPayPeriods props) + 1).

Definition calculateProjection (contributionPercent : Q)
    : list ProjectionPoint :=
  projectionLoop contributionPercent loopBound 0 (ytdContribution props).

(** [percent] is the component state, initialised with
    [currentPercent] and moved by the slider. *)
Definition projectionData (percent : Q) : list ProjectionPoint :=
  calculateProjection percent.

Definition projectedYearEnd (percent : Q) : Q :=
  Qmin
    (ytdContribution props
     + (annualSalary props / 26) * (percent / 100)
       * remainingPayPeriods props)
    effectiveMax.

(** [const taxSavings = projectedYearEnd * 0.32;] *)
Definition taxSavings (percent : Q) : Q :=
  projectedYearEnd percent * 0.32.

(** The "Remaining Room" cell. *)
Definition remainingRoomShown : Q :=
  effectiveMax - ytdContribution props.

(** [projectedYearEnd >= effectiveMax && "Will max out!"] *)
Definition willMaxOut (percent : Q) : bool :=
  Qle_bool effectiveMax (projectedYearEnd percent).
End Component.

End ContributionSlider.

(** ** [app/401k/page.tsx] *)

Module Page401k.

Record FormData : Type := {
  annual_salary : Q;
  current_contribution_percent : Q;
  ytd_contribution : Q;
  remaining_pay_periods : Q;
  age : Q;
}.

(** [interface Optimizer401kResult] of [lib/api]. *)
Record Optimizer401kResult : Type := {
  r_current_contribution_percent : Q;
  recommended_percent : Q;
  remaining_contribution_room : Q;
  max_contribution : Q;
  projected_year_end_contribution : Q;
  tax_savings : Q;
}.

(** Initial value of the [formData] state. *)
Definition initialFormData : FormData :=
  {| annual_salary := 450000;
     current_contribution_percent := 6;
     ytd_contribution := 2711.55;
     remaining_pay_periods := 22;
     age := 35 |}.

Definition mockOptimization (formData : FormData) : Optimizer401kResult :=
  {| r_current_contribution_percent := current_contribution_percent formData;
     recommended_percent := 13.5;
     remaining_contribution_room := 20788.45;
     max_contribution := 23500;
     projected_year_end_contribution := 23500;
     tax_savings := 7520 |}.

(** [const result = optimization || mockOptimization;] where
    [optimization] is undefined until the server has answered. *)
Definition result (formData : FormData)
    (optimization : option Optimizer401kResult) : Optimizer401kResult :=
  default (mockOptimization formData) optimization.

Definition catchUpEligible (formData : FormData) : bool :=
  Qle_bool 50 (age formData).

Definition effectiveMax (formData : FormData) : Q :=
  if catchUpEligible formData then 31000 else 23500.

(** The properties handed to [<ContributionSlider ... />]. *)
Definition sliderProps (formData : FormData)
    (optimization : option Optimizer401kResult)
    : ContributionSlider.ContributionSliderProps :=
  {| ContributionSlider.annualSalary := annual_salary formData;
     ContributionSlider.currentPercent :=
       current_contribution_percent formData;
     ContributionSlider.ytdContribution := ytd_contribution formData;
     ContributionSlider.remainingPayPeriods :=
       remaining_pay_periods formData;
     ContributionSlider.recommendedPercent :=
       recommended_percent (result formData optimization);
     ContributionSlider.maxContribution := Some 23500;
     ContributionSlider.catchUpEligible :=
       Some (catchUpEligible formData) |}.

(** "If You Max Out" table. *)
Definition federalSavingsShown (formData : FormData) : Q :=
  effectiveMax formData * 0.28.
Definition californiaSavingsShown (formData : FormData) : Q :=
  effectiveMax formData * 0.093.
Definition totalSavingsShown (formData : FormData) : Q :=
  effectiveMax formData * 0.373.

End Page401k.

(** ** JavaScript numbers that may be [NaN] *)

Module JsNum.

Inductive JsNumber : Type :=
| NaN
| PosInfinity
| NegInfinity
| Finite (q : Q).

Definition isNaN (n : JsNumber) : bool :=
  match n with NaN => true | _ => false end.

(** [n > 0]; every comparison with [NaN] is false. *)
Definition gtZero (n : JsNumber) : bool :=
  match n with
  | NaN => false
  | PosInfinity => true
  | NegInfinity => false
  | Finite q => negb (Qle_bool q 0)
  end.

Definition isWhiteSpace (c : ascii) : bool :=
  let n := N_of_ascii c in
  ((9 <=? n) && (n <=? 13) || (n =? 32))%N.

Definition isDigit (c : ascii) : bool :=
  let n := N_of_ascii c in ((48 <=? n) && (n <=? 57))%N.

Definition digitValue (c : ascii) : Z := Z.of_N (N_of_ascii c) - 48.

Fixpoint skipWhiteSpace (cs : list ascii) : list ascii :=
  match cs with
  | c :: cs' => if isWhiteSpace c then skipWhiteSpace cs' else cs
  | [] => []
  end.

(** The longest run of decimal digits at the head of [cs], and the rest. *)
Fixpoint takeDigits (cs : list ascii) : list ascii * list ascii :=
  match cs with
  | c :: cs' =>
      if isDigit c
      then let '(ds, rest) := takeDigits cs' in (c :: ds, rest)
      else ([], cs)
  | [] => ([], [])
  end.

Definition digitsValue (ds : list ascii) : Z :=
  fold_left (fun acc c => (10 * acc + digitValue c)%Z) ds 0%Z.

(** An optional sign: its factor and the remaining characters. *)
Definition takeSign (cs : list ascii) : Z * list ascii :=
  match cs with
  | "+"%char :: cs' => (1%Z, cs')
  | "-"%char :: cs' => ((-1)%Z, cs')
  | _ => (1%Z, cs)
  end.

Fixpoint isPrefix (p cs : list ascii) : bool :=
  match p, cs with
  | [], _ => true
  | a :: p', c :: cs' => if Ascii.eqb a c then isPrefix p' cs' else false
  | _ :: _, [] => false
  end.

(** The exponent part, when the characters start with one:
    [e] or [E], an optional sign and at least one digit. *)
Definition takeExponent (cs : list ascii) : Z :=
  match cs with
  | c :: cs' =>
      if Ascii.eqb c "e" || Ascii.eqb c "E" then
        let '(sg, cs'') := takeSign cs' in
        let '(ds, _) := takeDigits cs'' in
        match ds with
        | [] => 0%Z
        | _ :: _ => (sg * digitsValue ds)%Z
        end
      else 0%Z
  | [] => 0%Z
  end.

Definition decimalValue (sg : Z) (intDigits fracDigits : list ascii)
    (exponent : Z) : Q :=
  inject_Z sg
  * (inject_Z (digitsValue intDigits)
     + inject_Z (digitsValue fracDigits)
       / inject_Z (10 ^ Z.of_nat (List.length fracDigits)))
  * Qpower 10 exponent.

(** The global [parseFloat]: leading white space is skipped, the longest
    prefix that is a decimal literal ([Infinity], digits with an optional
    fraction and exponent, each with an optional sign) gives the value,
    and the result is [NaN] when there is no such prefix.  White space is
    that of the ASCII range; the value is the exact decimal, without the
    rounding, overflow or underflow of a double. *)
Definition parseFloat (s : string) : JsNumber :=
  let cs := skipWhiteSpace (list_ascii_of_string s) in
  let '(sg, cs1) := takeSign cs in
  if isPrefix (list_ascii_of_string "Infinity") cs1 then
    if (sg <? 0)%Z then NegInfinity else PosInfinity
  else
    let '(intDigits, cs2) := takeDigits cs1 in
    match cs2 with
    | "."%char :: cs3 =>
        let '(fracDigits, cs4) := takeDigits cs3 in
        match intDigits, fracDigits with
        | [], [] => NaN
        | _, _ =>
            Finite (decimalValue sg intDigits fracDigits (takeExponent cs4))
        end
    | _ =>
        match intDigits with
        | [] => NaN
        | _ :: _ => Finite (decimalValue sg intDigits [] (takeExponent cs2))
        end
    end.

End JsNum.

(** ** [lib/api]: the records exchanged with the server *)

Module Api.

Record QuarterlyEstimate : Type := {
  quarter : Z;
  due_date : string;
  federal_amount : Q;
  california_amount : Q;
  oklahoma_amount : Q;
  total_amount : Q;
  paid : bool;
  paid_amount : option Q;
}.

Record TaxProjection : Type := {
  gross_income : Q;
  federal_tax : Q;
  california_tax : Q;
  oklahoma_tax : Q;
  fica_tax : Q;
  total_tax : Q;
  effective_rate : Q;
  withheld_ytd : Q;
  projected_liability : Q;
  refund_or_owed : Q;
}.

(** The body of the request sent by [api.markQuarterlyPaid]:
    [POST /quarterly/mark-paid] with [{ quarter, amount }]. *)
Record MarkPaidRequest : Type := {
  req_quarter : Z;
  req_amount : JsNum.JsNumber;
}.

End Api.

(** ** The quarterly calendar component *)

Module QuarterlyCalendar.
Import JsNum Api.

(** The two pieces of component state. *)
Record CalendarState : Type := {
  editingQuarter : option Z;
  paymentAmount : string;
}.

(** [handleMarkPaid]: the new state and the call of [onMarkPaid], if the
    handler makes one. *)
Definition handleMarkPaid (quarter : Z) (st : CalendarState)
    : CalendarState * option (Z * JsNumber) :=
  let amount := parseFloat (paymentAmount st) in
  if negb (isNaN amount) && gtZero amount then
    ({| editingQuarter := None; paymentAmount := "" |},
     Some (quarter, amount))
  else (st, None).

(** The Cancel button. *)
Definition cancelEditing (st : CalendarState) : CalendarState :=
  {| editingQuarter := None; paymentAmount := paymentAmount st |}.

(** The form of an estimate is shown while it is unpaid and being edited. *)
Definition showsForm (st : CalendarState) (estimate : QuarterlyEstimate)
    : bool :=
  negb (paid estimate)
  && bool_decide (editingQuarter st = Some (quarter estimate)).

End QuarterlyCalendar.

(** ** [app/quarterly/page.tsx] *)

Module QuarterlyPage.
Import Api.

Definition mockQuarter (q : Z) (due : string) (isPaid : bool)
    (paidAmount : option Q) : QuarterlyEstimate :=
  {| quarter := q;
     due_date := due;
     federal_amount := 12500;
     california_amount := 5300;
     oklahoma_amount := 1100;
     total_amount := 18900;
     paid := isPaid;
     paid_amount := paidAmount |}.

Definition mockEstimates : list QuarterlyEstimate :=
  [ mockQuarter 1 "2025-04-15" true (Some 18900);
    mockQuarter 2 "2025-06-15" false None;
    mockQuarter 3 "2025-09-15" false None;
    mockQuarter 4 "2026-01-15" false None ].

(** [const displayEstimates = estimates || mockEstimates;] *)
Definition displayEstimates (estimates : option (list QuarterlyEstimate))
    : list QuarterlyEstimate :=
  default mockEstimates estimates.

(** [handleMarkPaid]: the mutation sends the request as it is. *)
Definition handleMarkPaid (quarter : Z) (amount : JsNum.JsNumber)
    : MarkPaidRequest :=
  {| req_quarter := quarter; req_amount := amount |}.

Section Totals.
Variable estimates : option (list QuarterlyEstimate).

Definition totalAnnual : Q :=
  fold_left (fun sum e => sum + total_amount e)
    (displayEstimates estimates) 0.

Definition totalPaid : Q :=
  fold_left (fun sum e => sum + default 0 (paid_amount e))
    (filter (fun e => paid e = true) (displayEstimates estimates)) 0.

Definition totalRemaining : Q := totalAnnual - totalPaid.

(** The two figures of the "Safe Harbor Information" card:
    [formatCurrency(165000 * 1.1)] and
    [formatCurrency(totalAnnual * 0.9 * 4)]. *)
Definition safeHarborPriorYearShown : Q := 165000 * 1.1.

Definition safeHarborCurrentYearShown : Q := totalAnnual * 0.9 * 4.
End Totals.

End QuarterlyPage.

(** ** The dashboard page and the projection chart *)

Module Dashboard.
Import Api.

Definition mockProjection : TaxProjection :=
  {| gross_income := 450000;
     federal_tax := 98500;
     california_tax := 42300;
     oklahoma_tax := 8500;
     fica_tax := 18750;
     total_tax := 168050;
     effective_rate := 37.3;
     withheld_ytd := 145000;
     projected_liability := 168050;
     refund_or_owed := -23050 |}.

(** [const data = projection || mockProjection;] *)
Definition data (projection : option TaxProjection) : TaxProjection :=
  default mockProjection projection.

Inductive Trend : Type := up | down.

(** What a card or caption presents: a label and the amount handed to
    [formatCurrency]. *)
Record Presented : Type := {
  label : string;
  amount : Q;
}.

(** The fourth [DashboardCard]. *)
Definition refundCard (d : TaxProjection) : Presented :=
  {| label := if Qle_bool 0 (refund_or_owed d)
              then "Projected Refund" else "Additional Owed";
     amount := Qabs (refund_or_owed d) |}.

Definition refundTrend (d : TaxProjection) : Trend :=
  if Qle_bool 0 (refund_or_owed d) then up else down.

(** [data.refund_or_owed < -5000 && ...] *)
Definition showsWithholdingWarning (d : TaxProjection) : bool :=
  negb (Qle_bool (-5000) (refund_or_owed d)).

End Dashboard.

Module TaxProjectionChart.
Import Api Dashboard.

(** The caption under the "Withheld vs Owed" chart. *)
Definition comparisonCaption (d : TaxProjection) : Presented :=
  if negb (Qle_bool (withheld_ytd d) (projected_liability d)) then
    {| label := "Projected Refund";
       amount := withheld_ytd d - projected_liability d |}
  else
    {| label := "Additional Tax Owed";
       amount := projected_liability d - withheld_ytd d |}.

End TaxProjectionChart.

(** ** The calculation engine behind the pages

    The pages obtain projections, optimizer results and vesting summaries
    from the server ([api.getProjection], [api.get401kOptimization],
    [api.getRSUVestingSummary]).  The server's code is not among the
    sources; every definition of this module is modelled from the
    specification of the engine, section by section. *)

Module Engine.

(** Modelled from the spec: the error taxonomy of section 7, with
    [ZeroDivision] for what a division by zero would raise. *)
Inductive EngineError : Type :=
| InvalidInput
| ConfigurationError
| ZeroDivision.

Inductive Result (A : Type) : Type :=
| Ok (a : A)
| Err (e : EngineError).
Arguments Ok {A} a.
Arguments Err {A} e.

Definition bind {A B : Type} (r : Result A) (f : A -> Result B) : Result B :=
  match r with
  | Ok a => f a
  | Err e => Err e
  end.

Notation "'let*' x ':=' r 'in' k" := (bind r (fun x => k))
  (at level 10, x name, r at level 100, k at level 200).

Fixpoint mapM {A B : Type} (f : A -> Result B) (l : list A)
    : Result (list B) :=
  match l with
  | [] => Ok []
  | a :: l' => let* b := f a in let* bs := mapM f l' in Ok (b :: bs)
  end.

(** Modelled from the spec: division as the engine performs it; a zero
    divisor is an error, not a value. *)
Definition checked_div (a b : Q) : Result Q :=
  if Qeq_bool b 0 then Err ZeroDivision else Ok (a / b).

Definition sumQ (l : list Q) : Q := fold_right Qplus 0 l.

(** *** Bracket calculator *)

(** Modelled from the spec: a row of a BracketTable, an upper bound (none
    for the top bracket) and a rate. *)
Record Bracket : Type := {
  upper_bound : option Q;
  rate : Q;
}.

Definition BracketTable : Type := list Bracket.

(** Modelled from the spec: the bracket walk of the Bracket Calculator, whose
    code is not among the sources.  Brackets are visited in ascending order;
    the part of [taxable] between the previous upper bound [lower] and the
    bracket's upper bound, clamped to [taxable], is taxed at the bracket's
    rate, and the contributions are accumulated. *)
Fixpoint bracket_walk (table : BracketTable) (lower taxable : Q) : Q :=
  match table with
  | [] => 0
  | b :: rest =>
      let upper :=
        match upper_bound b with
        | Some u => Qmin u taxable
        | None => taxable
        end in
      Qmax 0 (upper - lower) * rate b
      + bracket_walk rest (default taxable (upper_bound b)) taxable
  end.

(** Modelled from the spec: [tax(income, table, deduction)] of the Bracket
    Calculator; negative income is rejected. *)
Definition tax (income : Q) (table : BracketTable) (deduction : Q)
    : Result Q :=
  if negb (Qle_bool 0 income) then Err InvalidInput
  else Ok (bracket_walk table 0 (Qmax 0 (income - deduction))).

(** The 2025 federal table for married filing jointly, as the project
    notes list it. *)
Definition federal_2025 : BracketTable :=
  [ {| upper_bound := Some 23850; rate := 0.10 |};
    {| upper_bound := Some 96950; rate := 0.12 |};
    {| upper_bound := Some 206700; rate := 0.22 |};
    {| upper_bound := Some 394600; rate := 0.24 |};
    {| upper_bound := Some 501050; rate := 0.32 |};
    {| upper_bound := Some 751600; rate := 0.35 |};
    {| upper_bound := None; rate := 0.37 |} ].

(** *** FICA calculator *)

(** Modelled from the spec: FicaConfig and the four components returned by
    the FICA Calculator. *)
Record FicaConfig : Type := {
  ss_rate : Q;
  wage_base : Q;
  medicare_rate : Q;
  additional_medicare_rate : Q;
  additional_medicare_threshold : Q;
}.

Record FicaResult : Type := {
  social_security : Q;
  medicare : Q;
  additional_medicare : Q;
  fica_total : Q;
}.

(** Modelled from the spec: [fica(income, config)] of the FICA Calculator,
    whose code is not among the sources. *)
Definition fica (income : Q) (config : FicaConfig) : FicaResult :=
  let ss := Qmin income (wage_base config) * ss_rate config in
  let med := income * medicare_rate config in
  let add :=
    Qmax 0 (income - additional_medicare_threshold config)
    * additional_medicare_rate config in
  {| social_security := ss;
     medicare := med;
     additional_medicare := add;
     fica_total := ss + med + add |}.

(** The 2025 FICA constants of the project notes. *)
Definition fica_2025 : FicaConfig :=
  {| ss_rate := 0.062;
     wage_base := 176100;
     medicare_rate := 0.0145;
     additional_medicare_rate := 0.009;
     additional_medicare_threshold := 250000 |}.

(** *** Tax projection aggregator *)

(** Modelled from the spec: JurisdictionConfig, ProjectionInput (the
    withholding to date is listed per jurisdiction and for FICA) and
    ProjectionResult of section 3. *)
Record JurisdictionConfig : Type := {
  identifier : string;
  brackets : BracketTable;
  standard_deduction : option Q;
}.

Record ProjectionInput : Type := {
  gross_ytd_income : Q;
  withholding_ytd : list (string * Q);
  full_year_income_estimate : Q;
  jurisdictions : list JurisdictionConfig;
  fica_config : FicaConfig;
}.

Record ProjectionResult : Type := {
  tax_per_jurisdiction : list (string * Q);
  fica_owed : Q;
  total_tax : Q;
  effective_rate : Q;
  projected_liability : Q;
  refund_or_owed : Q;
}.

(** Modelled from the spec: the Bracket Calculator invoked for one
    jurisdiction, with its standard deduction if it has one. *)
Definition jurisdiction_tax (income : Q) (j : JurisdictionConfig)
    : Result (string * Q) :=
  let* t := tax income (brackets j) (default 0 (standard_deduction j)) in
  Ok (identifier j, t).

(** Modelled from the spec: [withheld_ytd], all withholding to date. *)
Definition withheld_total (input : ProjectionInput) : Q :=
  sumQ (map snd (withholding_ytd input)).

(** Modelled from the spec: the effective rate of the Tax Projection
    Aggregator, [total_tax / gross_income], and 0 when the gross income is
    0. *)
Definition effective_rate_of (total gross : Q) : Result Q :=
  if Qeq_bool gross 0 then Ok 0 else checked_div total gross.

(** Modelled from the spec: [project(input)] of the Tax Projection
    Aggregator, whose code is not among the sources.  Every configured
    jurisdiction is charged on the full-year income estimate, FICA is added,
    the effective rate is taken over the gross income to date, and the
    refund is what was withheld less the total tax. *)
Definition project (input : ProjectionInput) : Result ProjectionResult :=
  if negb (Qle_bool 0 (gross_ytd_income input)) then Err InvalidInput
  else
    let* taxes := mapM (jurisdiction_tax (full_year_income_estimate input))
                    (jurisdictions input) in
    let f := fica (full_year_income_estimate input) (fica_config input) in
    let total := sumQ (map snd taxes) + fica_total f in
    let* er := effective_rate_of total (gross_ytd_income input) in
    Ok {| tax_per_jurisdiction := taxes;
          fica_owed := fica_total f;
          total_tax := total;
          effective_rate := er;
          projected_liability := total;
          refund_or_owed := withheld_total input - total |}.

(** *** 401(k) optimizer *)

(** Modelled from the spec: the configuration values of the 401(k)
    Optimizer, and OptimizerInput and OptimizerResult of section 3. *)
Record OptimizerConfig : Type := {
  base_limit : Q;
  catch_up_limit : Q;
  periods_per_year : Q;
  assumed_marginal_rate : Q;
}.

Record OptimizerInput : Type := {
  annual_salary : Q;
  current_contribution_percent : Q;
  ytd_contribution : Q;
  remaining_pay_periods : Q;
  age : Q;
}.

Record OptimizerResult : Type := {
  recommended_percent : Q;
  remaining_room : Q;
  max_contribution : Q;
  projected_year_end_contribution : Q;
  tax_savings : Q;
}.

Section Optimizer.
Variable config : OptimizerConfig.
Variable input : OptimizerInput.

(** Modelled from the spec: [max_contribution = base_limit +
    (catch_up_limit if age >= 50 else 0)]. *)
Definition max_contribution_of : Q :=
  base_limit config
  + (if Qle_bool 50 (age input) then catch_up_limit config else 0).

(** Modelled from the spec: [remaining_room = max(0, max_contribution -
    ytd_contribution)]. *)
Definition remaining_room_of : Q :=
  Qmax 0 (max_contribution_of - ytd_contribution input).

(** Modelled from the spec: the per-period salary,
    [annual_salary / periods_per_year]. *)
Definition per_period_salary : Q :=
  annual_salary input / periods_per_year config.

(** Modelled from the spec: [ytd_contribution + per_period_salary *
    percent/100 * remaining_pay_periods], the year-end contribution reached
    by contributing [percent] of every remaining pay, before the statutory
    cap is applied. *)
Definition year_end_pace (percent : Q) : Q :=
  ytd_contribution input
  + per_period_salary * percent / 100 * remaining_pay_periods input.

(** Modelled from the spec: the projected year-end contribution at a
    percent, [min(max_contribution, ytd + pace)]. *)
Definition projected_at (percent : Q) : Q :=
  Qmin max_contribution_of (year_end_pace percent).

(** Modelled from the spec: the recommended percent of the 401(k)
    Optimizer, whose code is not among the sources.  It solves
    [year_end_pace percent = min(max_contribution, ytd + full pace)], full
    pace being the whole of every remaining pay; with no pay period left it
    is the current percent and nothing is divided. *)
Definition recommended_percent_of : Q :=
  if Qeq_bool (remaining_pay_periods input) 0
  then current_contribution_percent input
  else
    (Qmin max_contribution_of (year_end_pace 100) - ytd_contribution input)
    / (per_period_salary * remaining_pay_periods input) * 100.

(** Modelled from the spec: [optimize(input)] of the 401(k) Optimizer. *)
Definition optimize : OptimizerResult :=
  let projected := projected_at recommended_percent_of in
  {| recommended_percent := recommended_percent_of;
     remaining_room := remaining_room_of;
     max_contribution := max_contribution_of;
     projected_year_end_contribution := projected;
     tax_savings := projected * assumed_marginal_rate config |}.
End Optimizer.

(** The statutory constants of 2025 with a bi-weekly pay schedule. *)
Definition config2025 (marginal_rate : Q) : OptimizerConfig :=
  {| base_limit := 23500;
     catch_up_limit := 7500;
     periods_per_year := 26;
     assumed_marginal_rate := marginal_rate |}.

(** *** RSU vesting aggregator *)

(** Modelled from the spec: a calendar date, as its day number. *)
Definition Date : Type := Z.

(** Modelled from the spec: RSUVestingEvent and RSUVestingSummary of
    section 3; the fields are those of the interfaces in [lib/api]. *)
Record RSUVestingEvent : Type := {
  event_id : string;
  grant_id : string;
  symbol : string;
  grant_date : Date;
  vesting_date : Date;
  shares_vesting : Z;
  fmv_at_vest : Q;
  total_value : Q;
}.

Record RSUVestingSummary : Type := {
  total_grants : nat;
  total_shares_granted : Z;
  total_shares_vested : Z;
  total_shares_pending : Z;
  upcoming_vests : list RSUVestingEvent;
  past_vests : list RSUVestingEvent;
}.

(** Modelled from the spec: the sum of [shares_vesting] over events. *)
Definition sum_shares (events : list RSUVestingEvent) : Z :=
  foldr (fun e acc => (shares_vesting e + acc)%Z) 0%Z events.

(** Modelled from the spec: the partition rule, [vesting_date < now] is
    past and [vesting_date >= now] is upcoming. *)
Definition is_past (now : Date) (e : RSUVestingEvent) : Prop :=
  (vesting_date e < now)%Z.

Definition is_upcoming (now : Date) (e : RSUVestingEvent) : Prop :=
  (now <= vesting_date e)%Z.

(** Modelled from the spec: the two orders of the lists, by vesting date
    ascending and descending. *)
Definition vests_no_later (a b : RSUVestingEvent) : Prop :=
  (vesting_date a <= vesting_date b)%Z.

Definition vests_no_earlier (a b : RSUVestingEvent) : Prop :=
  (vesting_date b <= vesting_date a)%Z.

#[global] Instance is_past_dec now e : Decision (is_past now e).
Proof. unfold is_past. apply _. Defined.

#[global] Instance is_upcoming_dec now e : Decision (is_upcoming now e).
Proof. unfold is_upcoming. apply _. Defined.

#[global] Instance vests_no_later_dec a b : Decision (vests_no_later a b).
Proof. unfold vests_no_later. apply _. Defined.

#[global] Instance vests_no_earlier_dec a b : Decision (vests_no_earlier a b).
Proof. unfold vests_no_earlier. apply _. Defined.

(** Modelled from the spec: grants are grouped by grant id. *)
Definition distinct_grants (events : list RSUVestingEvent) : gset string :=
  list_to_set (map grant_id events).

(** Modelled from the spec: [summarize(events, now)] of the RSU Vesting
    Aggregator, whose code is not among the sources.  The shares granted are
    those of all events, the shares vested those of the past events
    ([vesting_date < now]); upcoming events are listed by vesting date
    ascending, past events most recent first; grants are counted by
    distinct grant id. *)
Definition summarize (events : list RSUVestingEvent) (now : Date)
    : RSUVestingSummary :=
  let past := filter (is_past now) events in
  let upcoming := filter (is_upcoming now) events in
  let granted := sum_shares events in
  let vested := sum_shares past in
  {| total_grants := size (distinct_grants events);
     total_shares_granted := granted;
     total_shares_vested := vested;
     total_shares_pending := (granted - vested)%Z;
     upcoming_vests := merge_sort vests_no_later upcoming;
     past_vests := merge_sort vests_no_earlier past |}.

End Engine.

(** ** The rest of the front end *)

(** *** The percent field of the contribution slider *)

Module SliderInput.
Import JsNum.

(** [Math.max(a, b)] and [Math.min(a, b)]: [NaN] if either argument is. *)
Definition mathMax (a b : JsNumber) : JsNumber :=
  match a, b with
  | NaN, _ | _, NaN => NaN
  | PosInfinity, _ | _, PosInfinity => PosInfinity
  | NegInfinity, x | x, NegInfinity => x
  | Finite p, Finite q => Finite (Qmax p q)
  end.

Definition mathMin (a b : JsNumber) : JsNumber :=
  match a, b with
  | NaN, _ | _, NaN => NaN
  | NegInfinity, _ | _, NegInfinity => NegInfinity
  | PosInfinity, x | x, PosInfinity => x
  | Finite p, Finite q => Finite (Qmin p q)
  end.

(** The [onChange] of the percent field,
    [setPercent(Math.min(100, Math.max(0, Number(e.target.value))))]:
    the new [percent] for the number [value] the typed text converts to. *)
Definition onPercentInput (value : JsNumber) : JsNumber :=
  mathMin (Finite 100) (mathMax (Finite 0) value).

End SliderInput.

(** *** The cards of the 401(k) page *)

Module Page401kCards.

(** The "Remaining Room" card,
    [formatCurrency(effectiveMax - formData.ytd_contribution)]. *)
Definition remainingRoomShown (formData : Page401k.FormData) : Q :=
  Page401k.effectiveMax formData - Page401k.ytd_contribution formData.

End Page401kCards.

(** *** The cards of the quarterly page and the status of a quarter *)

Module QuarterlyCards.
Import Api.

(** "n of 4 quarters paid" and "n payments remaining". *)
Definition paidCount (estimates : option (list QuarterlyEstimate)) : nat :=
  List.length
    (filter (fun e => paid e = true) (QuarterlyPage.displayEstimates estimates)).

Definition unpaidCount (estimates : option (list QuarterlyEstimate)) : nat :=
  List.length
    (filter (fun e => negb (paid e) = true)
       (QuarterlyPage.displayEstimates estimates)).

(** The result of [getQuarterStatus] of the calendar: ["paid"],
    ["overdue"], ["upcoming"] or ["future"]. *)
Inductive QuarterStatus : Type := paidStatus | overdue | upcoming | future.

#[global] Instance QuarterStatus_eq_dec : EqDecision QuarterStatus.
Proof. solve_decision. Defined.

Section Dates.
(** [new Date(s).getTime()], [None] for an invalid date (whose time is
    [NaN]), and the time of [new Date()], both in milliseconds. *)
Variable getTime : string -> option Z.
Variable today : Z.

(** [getQuarterStatus]. *)
Definition getQuarterStatus (estimate : QuarterlyEstimate) : QuarterStatus :=
  if paid estimate then paidStatus
  else
    match getTime (due_date estimate) with
    | Some dueDate =>
        if (dueDate <? today)%Z then overdue
        else if (dueDate - today <? 30 * 24 * 60 * 60 * 1000)%Z then upcoming
        else future
    | None => future
    end.

(** The dashboard's
    [quarterlyEstimates?.filter((q) => !q.paid && new Date(q.due_date)
    < new Date()).length || 0]. *)
Definition isPastDue (q : QuarterlyEstimate) : bool :=
  negb (paid q)
  && match getTime (due_date q) with
     | Some dueDate => (dueDate <? today)%Z
     | None => false
     end.

Definition unpaidQuarters (quarterlyEstimates : option (list QuarterlyEstimate))
    : nat :=
  match quarterlyEstimates with
  | Some qs => List.length (filter (fun q => isPastDue q = true) qs)
  | None => 0%nat
  end.
End Dates.

End QuarterlyCards.

(** *** The alerts of the dashboard *)

Module DashboardAlerts.
Import Api.

(** The "Consider increasing withholding" item: the amount it names when it
    is shown. *)
Definition withholdingWarning (d : TaxProjection) : option Q :=
  if Dashboard.showsWithholdingWarning d
  then Some (Qabs (refund_or_owed d))
  else None.

End DashboardAlerts.

(** *** The paystubs page *)

Module PaystubsPage.

(** [interface Paystub] of [lib/api]. *)
Record Paystub : Type := {
  id : string;
  pay_date : option string;
  gross_pay : Q;
  federal_withheld : Q;
  state_withheld : Q;
  fica_withheld : Q;
  net_pay : Q;
  _401k_contribution : Q;
  rsu_income : option Q;
}.

Definition mockPaystub (i date : string) (rsu : option Q) : Paystub :=
  {| id := i;
     pay_date := Some date;
     gross_pay := 17307.69;
     federal_withheld := 3800;
     state_withheld := 1850;
     fica_withheld := 1324;
     net_pay := 10333.69;
     _401k_contribution := 903.85;
     rsu_income := rsu |}.

Definition mockPaystubs : list Paystub :=
  [ mockPaystub "1" "2025-01-15" None;
    mockPaystub "2" "2025-01-31" None;
    mockPaystub "3" "2025-02-14" (Some 25000) ].

(** [const displayPaystubs = paystubs || mockPaystubs;] *)
Definition displayPaystubs (paystubs : option (list Paystub)) : list Paystub :=
  default mockPaystubs paystubs.

(** The accumulator of the [reduce]. *)
Record Totals : Type := {
  gross : Q;
  federal : Q;
  state : Q;
  fica : Q;
  _401k : Q;
  net : Q;
  rsu : Q;
}.

Definition zeroTotals : Totals :=
  {| gross := 0; federal := 0; state := 0; fica := 0;
     _401k := 0; net := 0; rsu := 0 |}.

Definition addPaystub (acc : Totals) (ps : Paystub) : Totals :=
  {| gross := gross acc + gross_pay ps;
     federal := federal acc + federal_withheld ps;
     state := state acc + state_withheld ps;
     fica := fica acc + fica_withheld ps;
     _401k := _401k acc + _401k_contribution ps;
     net := net acc + net_pay ps;
     rsu := rsu acc + default 0 (rsu_income ps) |}.

Definition totalsOf (stubs : list Paystub) : Totals :=
  fold_left addPaystub stubs zeroTotals.

Definition totals (paystubs : option (list Paystub)) : Totals :=
  totalsOf (displayPaystubs paystubs).

(** The RSU cell of the totals row, [totals.rsu > 0 ? ... : "-"]:
    the amount shown, or [None] for the dash. *)
Definition rsuTotalShown (t : Totals) : option Q :=
  if negb (Qle_bool (rsu t) 0) then Some (rsu t) else None.

(** The three cards under the table. *)
Definition ytdGrossShown (t : Totals) : Q := gross t + rsu t.

Definition ytdWithheldShown (t : Totals) : Q := federal t + state t + fica t.

(** [(totals._401k / 23500) * 100], before it is rounded for display. *)
Definition limitPercent (t : Totals) : Q := (_401k t / 23500) * 100.

(** The sum of one column of the table, in which the properties of the
    totals are stated. *)
Definition columnSum (column : Paystub -> Q) (stubs : list Paystub) : Q :=
  fold_right Qplus 0 (map column stubs).

End PaystubsPage.

(** *** The two upload components *)

Module Uploader.

(** What the components read of a [File]. *)
Record File : Type := {
  name : string;
  type : string;
}.

Record UploaderState : Type := {
  isDragging : bool;
  file : option File;
  isUploading : bool;
  error : option string;
}.

Definition initialState : UploaderState :=
  {| isDragging := false; file := None; isUploading := false;
     error := None |}.

(** How the awaited upload ends: it resolves, or it rejects with an [Error]
    carrying a message, or with something that is not an [Error]. *)
Inductive UploadOutcome : Type :=
| Resolved
| RejectedError (message : string)
| RejectedOther.

(** [s.endsWith(suffix)]. *)
Definition endsWith (s suffix : string) : bool :=
  let n := String.length s in
  let m := String.length suffix in
  (m <=? n)%nat && String.eqb (String.substring (n - m) m s) suffix.

Section Handlers.
(** The test of the dropped or selected file and the message shown when it
    fails; they are all that differs between the handlers of the two
    components. *)
Variable accepts : File -> bool.
Variable rejection : string.

Definition handleDragOver (st : UploaderState) : UploaderState :=
  {| isDragging := true; file := file st; isUploading := isUploading st;
     error := error st |}.

Definition handleDragLeave (st : UploaderState) : UploaderState :=
  {| isDragging := false; file := file st; isUploading := isUploading st;
     error := error st |}.

(** [handleDrop] with [e.dataTransfer.files[0]], which is undefined when
    nothing was dropped. *)
Definition handleDrop (droppedFile : option File) (st : UploaderState)
    : UploaderState :=
  match droppedFile with
  | Some f =>
      if accepts f then
        {| isDragging := false; file := Some f;
           isUploading := isUploading st; error := None |}
      else
        {| isDragging := false; file := file st;
           isUploading := isUploading st; error := Some rejection |}
  | None =>
      {| isDragging := false; file := file st;
         isUploading := isUploading st; error := Some rejection |}
  end.

(** [handleFileSelect] with [e.target.files?.[0]]. *)
Definition handleFileSelect (selectedFile : option File) (st : UploaderState)
    : UploaderState :=
  match selectedFile with
  | Some f =>
      if accepts f then
        {| isDragging := isDragging st; file := Some f;
           isUploading := isUploading st; error := None |}
      else
        {| isDragging := isDragging st; file := file st;
           isUploading := isUploading st; error := Some rejection |}
  | None =>
      {| isDragging := isDragging st; file := file st;
         isUploading := isUploading st; error := Some rejection |}
  end.

(** [handleUpload] up to its [await]: the new state and the file handed to
    the upload call of [lib/api], if one is made. *)
Definition handleUploadStart (st : UploaderState)
    : UploaderState * option File :=
  match file st with
  | None => (st, None)
  | Some f =>
      ({| isDragging := isDragging st; file := file st;
          isUploading := true; error := None |},
       Some f)
  end.

(** [handleUpload] from the end of its [await]: the state, and whether
    [onUploadSuccess] is called. *)
Definition handleUploadFinish (outcome : UploadOutcome) (st : UploaderState)
    : UploaderState * bool :=
  match outcome with
  | Resolved =>
      ({| isDragging := isDragging st; file := None;
          isUploading := false; error := error st |},
       true)
  | RejectedError message =>
      ({| isDragging := isDragging st; file := file st;
          isUploading := false; error := Some message |},
       false)
  | RejectedOther =>
      ({| isDragging := isDragging st; file := file st;
          isUploading := false; error := Some "Upload failed" |},
       false)
  end.

Definition clearFile (st : UploaderState) : UploaderState :=
  {| isDragging := isDragging st; file := None;
     isUploading := isUploading st; error := None |}.
End Handlers.

(** What the user and the network can do to a component. *)
Inductive UploaderEvent : Type :=
| DragOver
| DragLeave
| Drop (droppedFile : option File)
| FileSelect (selectedFile : option File)
| ClickUpload
| ClickClear
| UploadEnds (outcome : UploadOutcome).

(** [PaystubUploader]: a file is accepted when its type is
    [application/pdf]. *)
Definition acceptsPdf (f : File) : bool :=
  String.eqb (type f) "application/pdf".

(** [RSUUploader]: a file is accepted when its type is [text/csv] or its
    name ends with [.csv]. *)
Definition acceptsCsv (f : File) : bool :=
  String.eqb (type f) "text/csv" || endsWith (name f) ".csv".

(** A component with its uploads under way: the files handed to the upload
    call whose answer has not arrived yet. *)
Record Running : Type := {
  ui : UploaderState;
  underWay : list File;
  uploaded : list File;
}.

Definition initialRunning : Running :=
  {| ui := initialState; underWay := []; uploaded := [] |}.

Definition startUpload (accepts : File -> bool) (rejection : string)
    (r : Running) : Running :=
  let '(st, call) := handleUploadStart (ui r) in
  match call with
  | Some f =>
      {| ui := st; underWay := underWay r ++ [f];
         uploaded := uploaded r ++ [f] |}
  | None => {| ui := st; underWay := underWay r; uploaded := uploaded r |}
  end.

(** One event on [PaystubUploader].  The drop zone is always there; the
    file input is rendered while no file is chosen; the clear and upload
    buttons are rendered while a file is chosen, the upload button being
    disabled during an upload; an upload can only end if one is under
    way.  An event on a control that is absent or disabled changes
    nothing. *)
Definition paystubStep (r : Running) (ev : UploaderEvent) : Running :=
  let st := ui r in
  let keep st' :=
    {| ui := st'; underWay := underWay r; uploaded := uploaded r |} in
  match ev with
  | DragOver => keep (handleDragOver st)
  | DragLeave => keep (handleDragLeave st)
  | Drop f => keep (handleDrop acceptsPdf "Please upload a PDF file" f st)
  | FileSelect f =>
      match file st with
      | None =>
          keep (handleFileSelect acceptsPdf "Please upload a PDF file" f st)
      | Some _ => r
      end
  | ClickUpload =>
      match file st with
      | Some _ =>
          if isUploading st then r
          else startUpload acceptsPdf "Please upload a PDF file" r
      | None => r
      end
  | ClickClear =>
      match file st with
      | Some _ => keep (clearFile st)
      | None => r
      end
  | UploadEnds outcome =>
      match underWay r with
      | _ :: rest =>
          {| ui := fst (handleUploadFinish outcome st);
             underWay := rest; uploaded := uploaded r |}
      | [] => r
      end
  end.

(** One event on [RSUUploader].  The drop zone and the file input are always
    there; the clear and upload buttons are rendered while a file is chosen
    and both are disabled during an upload. *)
Definition rsuStep (r : Running) (ev : UploaderEvent) : Running :=
  let st := ui r in
  let keep st' :=
    {| ui := st'; underWay := underWay r; uploaded := uploaded r |} in
  match ev with
  | DragOver => keep (handleDragOver st)
  | DragLeave => keep (handleDragLeave st)
  | Drop f => keep (handleDrop acceptsCsv "Please upload a CSV file" f st)
  | FileSelect f =>
      keep (handleFileSelect acceptsCsv "Please upload a CSV file" f st)
  | ClickUpload =>
      match file st with
      | Some _ =>
          if isUploading st then r
          else startUpload acceptsCsv "Please upload a CSV file" r
      | None => r
      end
  | ClickClear =>
      match file st with
      | Some _ => if isUploading st then r else keep (clearFile st)
      | None => r
      end
  | UploadEnds outcome =>
      match underWay r with
      | _ :: rest =>
          {| ui := fst (handleUploadFinish outcome st);
             underWay := rest; uploaded := uploaded r |}
      | [] => r
      end
  end.

Definition runPaystub (events : list UploaderEvent) : Running :=
  fold_left paystubStep events initialRunning.

Definition runRsu (events : list UploaderEvent) : Running :=
  fold_left rsuStep events initialRunning.

(** Two conditions on a running component, in which its properties are
    stated: every file chosen, under way or uploaded passed the test; and
    the spinner shows exactly while an upload is under way, of which there
    is at most one. *)
Definition allAccepted (accepts : File -> bool) (r : Running) : Prop :=
  (forall f, file (ui r) = Some f -> accepts f = true)
  /\ Forall (fun f => accepts f = true) (underWay r)
  /\ Forall (fun f => accepts f = true) (uploaded r).

Definition oneUnderWay (r : Running) : Prop :=
  (isUploading (ui r) = true <-> underWay r <> [])
  /\ (List.length (underWay r) <= 1)%nat.

End Uploader.

(** *** The navigation bar *)

Module Navigation.

Record NavItem : Type := {
  href : string;
  label : string;
}.

Definition navItems : list NavItem :=
  [ {| href := "/"; label := "Dashboard" |};
    {| href := "/paystubs"; label := "Paystubs" |};
    {| href := "/rsu"; label := "RSU Tracker" |};
    {| href := "/401k"; label := "401(k)" |};
    {| href := "/quarterly"; label := "Quarterly" |};
    {| href := "/settings"; label := "Settings" |} ].

(** [const isActive = pathname === item.href;] *)
Definition isActive (pathname : string) (item : NavItem) : bool :=
  String.eqb pathname (href item).

Definition activeItems (pathname : string) : list NavItem :=
  filter (fun item => isActive pathname item = true) navItems.

End Navigation.

(** *** The manual-entry form of the RSU page *)

Module RSUPage.
Import JsNum.

(** [interface RSUVestingEvent] and [RSUVestingEventCreate] of [lib/api],
    the second with the numbers as [handleSubmit] computes them. *)
Record RSUVestingEvent : Type := {
  id : string;
  grant_id : string;
  symbol : string;
  grant_date : string;
  vesting_date : string;
  shares_vesting : Q;
  fmv_at_vest : Q;
  total_value : Q;
}.

Record EventData : Type := {
  d_grant_id : string;
  d_symbol : string;
  d_grant_date : string;
  d_vesting_date : string;
  d_shares_vesting : JsNumber;
  d_fmv_at_vest : JsNumber;
}.

(** The [formData] state: every field is the text of an input. *)
Record FormData : Type := {
  f_grant_id : string;
  f_symbol : string;
  f_grant_date : string;
  f_vesting_date : string;
  f_shares_vesting : string;
  f_fmv_at_vest : string;
}.

Record PageState : Type := {
  showManualForm : bool;
  editingEvent : option RSUVestingEvent;
  formData : FormData;
}.

Definition emptyForm : FormData :=
  {| f_grant_id := ""; f_symbol := ""; f_grant_date := "";
     f_vesting_date := ""; f_shares_vesting := ""; f_fmv_at_vest := "" |}.

Definition initialState : PageState :=
  {| showManualForm := false; editingEvent := None; formData := emptyForm |}.

(** The mutation started by [handleSubmit]. *)
Inductive Mutation : Type :=
| Create (event : EventData)
| Update (eventId : string) (event : EventData).

(** The inputs of the form. *)
Inductive Field : Type :=
| GrantId | Symbol | GrantDate | VestingDate | SharesVesting | FmvAtVest.

Section Page.
(** The built-in [String.prototype.toUpperCase], the global [parseInt] and
    [Number.prototype.toString]. *)
Variable toUpperCase : string -> string.
Variable parseInt : string -> JsNumber.
Variable numberToString : Q -> string.

Definition resetForm (st : PageState) : PageState :=
  {| showManualForm := false; editingEvent := None; formData := emptyForm |}.

Definition handleEdit (event : RSUVestingEvent) (st : PageState)
    : PageState :=
  {| showManualForm := true;
     editingEvent := Some event;
     formData :=
       {| f_grant_id := grant_id event;
          f_symbol := symbol event;
          f_grant_date := grant_date event;
          f_vesting_date := vesting_date event;
          f_shares_vesting := numberToString (shares_vesting event);
          f_fmv_at_vest := numberToString (fmv_at_vest event) |} |}.

(** The button of the "Manual Entry" card:
    [setShowManualForm(!showManualForm); if (showManualForm) resetForm();] *)
Definition toggleManualForm (st : PageState) : PageState :=
  if showManualForm st then resetForm st
  else {| showManualForm := true; editingEvent := editingEvent st;
          formData := formData st |}.

(** The [onChange] of an input; the symbol is stored in upper case. *)
Definition setField (field : Field) (value : string) (st : PageState)
    : PageState :=
  let f := formData st in
  let f' :=
    match field with
    | GrantId =>
        {| f_grant_id := value; f_symbol := f_symbol f;
           f_grant_date := f_grant_date f;
           f_vesting_date := f_vesting_date f;
           f_shares_vesting := f_shares_vesting f;
           f_fmv_at_vest := f_fmv_at_vest f |}
    | Symbol =>
        {| f_grant_id := f_grant_id f; f_symbol := toUpperCase value;
           f_grant_date := f_grant_date f;
           f_vesting_date := f_vesting_date f;
           f_shares_vesting := f_shares_vesting f;
           f_fmv_at_vest := f_fmv_at_vest f |}
    | GrantDate =>
        {| f_grant_id := f_grant_id f; f_symbol := f_symbol f;
           f_grant_date := value;
           f_vesting_date := f_vesting_date f;
           f_shares_vesting := f_shares_vesting f;
           f_fmv_at_vest := f_fmv_at_vest f |}
    | VestingDate =>
        {| f_grant_id := f_grant_id f; f_symbol := f_symbol f;
           f_grant_date := f_grant_date f;
           f_vesting_date := value;
           f_shares_vesting := f_shares_vesting f;
           f_fmv_at_vest := f_fmv_at_vest f |}
    | SharesVesting =>
        {| f_grant_id := f_grant_id f; f_symbol := f_symbol f;
           f_grant_date := f_grant_date f;
           f_vesting_date := f_vesting_date f;
           f_shares_vesting := value;
           f_fmv_at_vest := f_fmv_at_vest f |}
    | FmvAtVest =>
        {| f_grant_id := f_grant_id f; f_symbol := f_symbol f;
           f_grant_date := f_grant_date f;
           f_vesting_date := f_vesting_date f;
           f_shares_vesting := f_shares_vesting f;
           f_fmv_at_vest := value |}
    end in
  {| showManualForm := showManualForm st;
     editingEvent := editingEvent st;
     formData := f' |}.

Definition eventDataOf (f : FormData) : EventData :=
  {| d_grant_id := f_grant_id f;
     d_symbol := toUpperCase (f_symbol f);
     d_grant_date := f_grant_date f;
     d_vesting_date := f_vesting_date f;
     d_shares_vesting := parseInt (f_shares_vesting f);
     d_fmv_at_vest := parseFloat (f_fmv_at_vest f) |}.

(** [handleSubmit]: an update of the event being edited, or else a
    creation. *)
Definition handleSubmit (st : PageState) : Mutation :=
  match editingEvent st with
  | Some event => Update (id event) (eventDataOf (formData st))
  | None => Create (eventDataOf (formData st))
  end.

(** What can happen to the form: an edit button of a listed event, the
    button of the card, typing into an input, the Cancel button of the form,
    and the success of a creation or update; the last two call
    [resetForm]. *)
Inductive FormEvent : Type :=
| ClickEdit (event : RSUVestingEvent)
| ClickToggle
| ChangeField (field : Field) (value : string)
| ClickCancel
| MutationSucceeds.

(** The inputs and the Cancel button exist only while the form is shown. *)
Definition formStep (st : PageState) (ev : FormEvent) : PageState :=
  match ev with
  | ClickEdit event => handleEdit event st
  | ClickToggle => toggleManualForm st
  | ChangeField field value =>
      if showManualForm st then setField field value st else st
  | ClickCancel => if showManualForm st then resetForm st else st
  | MutationSucceeds => resetForm st
  end.

Definition runForm (events : list FormEvent) : PageState :=
  fold_left formStep events initialState.
End Page.

(** Typing the given texts into the given inputs, one after the other. *)
Definition typing (typed : list (Field * string)) : list FormEvent :=
  map (fun fv => ChangeField (fst fv) (snd fv)) typed.

End RSUPage.

(* ===================================================================== *)
(** * Part II: properties                                                *)
(* ===================================================================== *)

(** ** Comparisons of rationals as the program evaluates them *)

Lemma Qle_bool_true (x y : Q) : Qle_bool x y = true <-> x <= y.
Proof. apply Qle_bool_iff. Qed.

Lemma Qle_bool_false (x y : Q) : Qle_bool x y = false <-> y < x.
Proof.
  split; intros H.
  - apply Qnot_le_lt. intros Hle. apply Qle_bool_iff in Hle. congruence.
  - destruct (Qle_bool x y) eqn:E; [| reflexivity].
    apply Qle_bool_iff in E. exfalso. apply (Qlt_not_le _ _ H E).
Qed.

Lemma Qmin_eq_compat (a a' b b' : Q) :
  a == a' -> b == b' -> Qmin a b == Qmin a' b'.
Proof.
  intros Ha Hb.
  destruct (Q.min_spec a b) as [[H1 ->] | [H1 ->]];
    destruct (Q.min_spec a' b') as [[H2 ->] | [H2 ->]]; lra.
Qed.

Lemma Qmin_swap (a b : Q) : Qmin a b == Qmin b a.
Proof. apply Q.min_comm. Qed.

(** ** The contribution slider *)

Lemma effectiveMax_catch_up (props : ContributionSlider.ContributionSliderProps)
    (base : Q) :
  ContributionSlider.maxContribution props = Some base ->
  ContributionSlider.catchUpEligible props = Some true ->
  ContributionSlider.effectiveMax props == base + 7500.
Proof.
  intros Hb Hc.
  unfold ContributionSlider.effectiveMax,
    ContributionSlider.catchUpEligibleOrDefault,
    ContributionSlider.maxContributionOrDefault.
  rewrite Hb, Hc. simpl. reflexivity.
Qed.

Lemma effectiveMax_no_catch_up
    (props : ContributionSlider.ContributionSliderProps) (base : Q) :
  ContributionSlider.maxContribution props = Some base ->
  ContributionSlider.catchUpEligible props = Some false ->
  ContributionSlider.effectiveMax props == base.
Proof.
  intros Hb Hc.
  unfold ContributionSlider.effectiveMax,
    ContributionSlider.catchUpEligibleOrDefault,
    ContributionSlider.maxContributionOrDefault.
  rewrite Hb, Hc. simpl. reflexivity.
Qed.

Lemma page_catchUpEligible_true (formData : Page401k.FormData) :
  Page401k.catchUpEligible formData = true <-> 50 <= Page401k.age formData.
Proof. apply Qle_bool_true. Qed.

Lemma page_catchUpEligible_false (formData : Page401k.FormData) :
  Page401k.catchUpEligible formData = false <-> Page401k.age formData < 50.
Proof. apply Qle_bool_false. Qed.

(** C2.  The largest contribution allowed is the base limit plus exactly
    7,500 for a saver aged 50 or more and the base limit alone below 50:
    for every slider whose catch-up flag is set from the age as the page
    sets it, whatever base limit it is given, and for the page itself with
    the 2025 limit (23,500 without, 31,000 with catch-up). *)
Theorem C2_max_contribution_catch_up
    (formData : Page401k.FormData)
    (optimization : option Page401k.Optimizer401kResult)
    (props : ContributionSlider.ContributionSliderProps) (base : Q) :
  ContributionSlider.maxContribution props = Some base ->
  ContributionSlider.catchUpEligible props
    = Some (Page401k.catchUpEligible formData) ->
  (50 <= Page401k.age formData ->
     ContributionSlider.effectiveMax props == base + 7500
     /\ Page401k.effectiveMax formData == 31000
     /\ ContributionSlider.effectiveMax
          (Page401k.sliderProps formData optimization) == 23500 + 7500)
  /\ (Page401k.age formData < 50 ->
     ContributionSlider.effectiveMax props == base
     /\ Page401k.effectiveMax formData == 23500
     /\ ContributionSlider.effectiveMax
          (Page401k.sliderProps formData optimization) == 23500).
Proof.
  intros Hbase Hflag. split; intros Hage.
  - apply page_catchUpEligible_true in Hage.
    rewrite Hage in Hflag. repeat split.
    + exact (effectiveMax_catch_up props base Hbase Hflag).
    + unfold Page401k.effectiveMax. rewrite Hage. reflexivity.
    + apply effectiveMax_catch_up; simpl; [reflexivity | now rewrite Hage].
  - apply page_catchUpEligible_false in Hage.
    rewrite Hage in Hflag. repeat split.
    + exact (effectiveMax_no_catch_up props base Hbase Hflag).
    + unfold Page401k.effectiveMax. rewrite Hage. reflexivity.
    + apply effectiveMax_no_catch_up; simpl; [reflexivity | now rewrite Hage].
Qed.

(** The page as it opens (age 35) and the same form with age 50. *)
Lemma C2_max_contribution_catch_up_witness :
  ContributionSlider.effectiveMax
    (Page401k.sliderProps Page401k.initialFormData None) == 23500
  /\ Page401k.effectiveMax
       {| Page401k.annual_salary := 450000;
          Page401k.current_contribution_percent := 6;
          Page401k.ytd_contribution := 2711.55;
          Page401k.remaining_pay_periods := 22;
          Page401k.age := 50 |} == 31000.
Proof.
  split.
  - apply (C2_max_contribution_catch_up Page401k.initialFormData None
             (Page401k.sliderProps Page401k.initialFormData None) 23500
             eq_refl eq_refl).
    reflexivity.
  - set (fd := {| Page401k.annual_salary := 450000;
                  Page401k.current_contribution_percent := 6;
                  Page401k.ytd_contribution := 2711.55;
                  Page401k.remaining_pay_periods := 22;
                  Page401k.age := 50 |}).
    apply (C2_max_contribution_catch_up fd None
             (Page401k.sliderProps fd None) 23500 eq_refl eq_refl).
    unfold Qle; simpl; lia.
Defined.

Lemma projectedYearEnd_min
    (props : ContributionSlider.ContributionSliderProps) (percent : Q) :
  ContributionSlider.projectedYearEnd props percent
  == Qmin (ContributionSlider.effectiveMax props)
       (ContributionSlider.ytdContribution props
        + (ContributionSlider.annualSalary props / 26) * percent / 100
          * ContributionSlider.remainingPayPeriods props).
Proof.
  unfold ContributionSlider.projectedYearEnd.
  rewrite Qmin_swap. apply Qmin_eq_compat; [reflexivity | field].
Qed.

Lemma projectedYearEnd_le_max
    (props : ContributionSlider.ContributionSliderProps) (percent : Q) :
  ContributionSlider.projectedYearEnd props percent
  <= ContributionSlider.effectiveMax props.
Proof. apply Q.le_min_r. Qed.

(** C3.  The projected year-end contribution shown by the slider is
    [min(max_contribution, ytd + (annual_salary / 26) * percent / 100 *
    remaining_pay_periods)], 26 being the pay periods of a year and
    [max_contribution] the effective maximum; it never exceeds that
    maximum. *)
Theorem C3_projected_year_end
    (props : ContributionSlider.ContributionSliderProps) (percent : Q) :
  ContributionSlider.projectedYearEnd props percent
  == Qmin (ContributionSlider.effectiveMax props)
       (ContributionSlider.ytdContribution props
        + (ContributionSlider.annualSalary props / 26) * percent / 100
          * ContributionSlider.remainingPayPeriods props)
  /\ ContributionSlider.projectedYearEnd props percent
     <= ContributionSlider.effectiveMax props.
Proof.
  split.
  - apply projectedYearEnd_min.
  - apply projectedYearEnd_le_max.
Qed.

Example projectedYearEnd_page_default :
  ContributionSlider.projectedYearEnd
    (Page401k.sliderProps Page401k.initialFormData None) 6 == 23500.
Proof. vm_compute. reflexivity. Qed.

Example projectedYearEnd_below_cap :
  ContributionSlider.projectedYearEnd
    (Page401k.sliderProps Page401k.initialFormData None) 2
  == 2711.55 + 198000 / 26.
Proof. vm_compute. reflexivity. Qed.

(** *** The projection series *)

Lemma Qle_floor (i : Z) (x : Q) : inject_Z i <= x <-> (i <= Qfloor x)%Z.
Proof.
  split; intros H.
  - rewrite <- (Qfloor_Z i). now apply Qfloor_resp_le.
  - apply Qle_trans with (inject_Z (Qfloor x)); [| apply Qfloor_le].
    now rewrite <- Zle_Qle.
Qed.

Section ProjectionLoop.
Import ContributionSlider.
Variable props : ContributionSliderProps.
Variable percent : Q.

Let rem := remainingPayPeriods props.
Let step := perPayPeriodContribution props percent.

(** What the loop has pushed at position [k] when started from
    [(i, projected)]. *)
Lemma projectionLoop_lookup (fuel : nat) :
  forall (i : Z) (projected : Q) (k : nat) (pt : ProjectionPoint),
    projectionLoop props percent fuel i projected !! k = Some pt ->
    payPeriod pt = (i + Z.of_nat k)%Z
    /\ contribution pt
       == Qmin (projected + inject_Z (Z.of_nat k) * step) (effectiveMax props)
    /\ max pt = effectiveMax props
    /\ inject_Z (i + Z.of_nat k) <= rem.
Proof using Type.
  induction fuel as [| fuel IH]; intros i projected k pt H; simpl in H.
  - discriminate.
  - destruct (Qle_bool (inject_Z i) (remainingPayPeriods props)) eqn:E;
      [| discriminate].
    destruct k as [| k]; simpl in H.
    + injection H as <-. simpl. rewrite Z.add_0_r.
      repeat split; [| now apply Qle_bool_true].
      apply Qmin_eq_compat; [| reflexivity]. simpl. unfold inject_Z. ring.
    + apply IH in H as (Hp & Hc & Hm & Hle).
      replace (i + Z.of_nat (S k))%Z with (i + 1 + Z.of_nat k)%Z by lia.
      repeat split; try assumption.
      rewrite Hc. apply Qmin_eq_compat; [| reflexivity].
      rewrite Nat2Z.inj_succ. unfold Z.succ. rewrite inject_Z_plus.
      fold step. ring.
Qed.

(** The loop stops by its own test: fuel beyond the number of pay periods
    left changes nothing. *)
Lemma projectionLoop_fuel (fuel : nat) :
  forall (i : Z) (projected : Q),
    (Z.to_nat (Qfloor rem + 1 - i) <= fuel)%nat ->
    projectionLoop props percent fuel i projected
    = projectionLoop props percent (Z.to_nat (Qfloor rem + 1 - i)) i projected.
Proof using Type.
  induction fuel as [| fuel IH]; intros i projected Hfuel.
  - replace (Z.to_nat (Qfloor rem + 1 - i)) with 0%nat by lia. reflexivity.
  - simpl.
    destruct (Qle_bool (inject_Z i) (remainingPayPeriods props)) eqn:E.
    + apply Qle_bool_true, Qle_floor in E. fold rem in E.
      replace (Z.to_nat (Qfloor rem + 1 - i))
        with (S (Z.to_nat (Qfloor rem + 1 - (i + 1)))) by lia.
      simpl.
      assert (E' : Qle_bool (inject_Z i) (remainingPayPeriods props) = true)
        by now apply Qle_bool_true, Qle_floor.
      rewrite E'. f_equal. apply IH. lia.
    + apply Qle_bool_false in E.
      assert (Hi : (Qfloor rem < i)%Z).
      { apply Z.nle_gt. intros Hle. apply Qle_floor in Hle.
        apply (Qlt_not_le _ _ E Hle). }
      replace (Z.to_nat (Qfloor rem + 1 - i)) with 0%nat by lia. reflexivity.
Qed.

Lemma projectionLoop_length (fuel : nat) :
  forall (i : Z) (projected : Q),
    List.length (projectionLoop props percent fuel i projected)
    = Nat.min fuel (Z.to_nat (Qfloor rem + 1 - i)).
Proof using Type.
  induction fuel as [| fuel IH]; intros i projected; [reflexivity |].
  cbn [projectionLoop].
  destruct (Qle_bool (inject_Z i) (remainingPayPeriods props)) eqn:E.
  - apply Qle_bool_true, Qle_floor in E. fold rem in E.
    cbn [List.length]. rewrite IH. lia.
  - apply Qle_bool_false in E.
    assert (Hi : (Qfloor rem < i)%Z).
    { apply Z.nle_gt. intros Hle. apply Qle_floor in Hle.
      apply (Qlt_not_le _ _ E Hle). }
    cbn [List.length]. lia.
Qed.

(** [calculateProjection] returns the whole series: one point for each pay
    period [0 .. floor remainingPayPeriods], whatever larger bound is given
    to the loop. *)
Lemma calculateProjection_total (fuel : nat) :
  (loopBound props <= fuel)%nat ->
  projectionLoop props percent fuel 0 (ytdContribution props)
  = calculateProjection props percent.
Proof using Type.
  intros H. unfold calculateProjection, loopBound in *.
  rewrite projectionLoop_fuel by (fold rem; rewrite Z.sub_0_r; exact H).
  fold rem. now rewrite Z.sub_0_r.
Qed.

Lemma calculateProjection_length :
  List.length (calculateProjection props percent)
  = Z.to_nat (Qfloor rem + 1).
Proof using Type.
  unfold calculateProjection. rewrite projectionLoop_length.
  unfold loopBound. fold rem. rewrite Z.sub_0_r. lia.
Qed.

Lemma calculateProjection_lookup (k : nat) (pt : ProjectionPoint) :
  calculateProjection props percent !! k = Some pt ->
  payPeriod pt = Z.of_nat k
  /\ contribution pt
     == Qmin (ytdContribution props + inject_Z (Z.of_nat k) * step)
          (effectiveMax props)
  /\ max pt = effectiveMax props
  /\ inject_Z (Z.of_nat k) <= rem.
Proof using Type.
  intros H. apply projectionLoop_lookup in H. exact H.
Qed.

Lemma step_nonneg :
  0 <= annualSalary props -> 0 <= percent -> 0 <= step.
Proof using Type.
  intros Hs Hp. unfold step, perPayPeriodContribution, perPayPeriodSalary.
  assert (H : 0 <= annualSalary props * percent) by now apply Qmult_le_0_compat.
  assert (E : annualSalary props / 26 * percent / 100
              == annualSalary props * percent * (1 / 2600)) by field.
  rewrite E. apply Qmult_le_0_compat; [exact H | vm_compute; discriminate].
Qed.
End ProjectionLoop.

(** C10.  For a non-negative salary and contribution percent, whatever the
    contribution to date and the pay periods left, the series drawn by the
    slider does not decrease from one pay period to a later one, every point
    of it is at most the effective maximum, and so is the projected year-end
    contribution; the series has one point for each pay period from 0 to
    the number of pay periods left. *)
Theorem C10_projection_series_bounded_monotone
    (props : ContributionSlider.ContributionSliderProps) (percent : Q) :
  0 <= ContributionSlider.annualSalary props ->
  0 <= percent ->
  let data := ContributionSlider.projectionData props percent in
  (forall p q : ContributionSlider.ProjectionPoint,
      p ∈ data -> q ∈ data ->
      (ContributionSlider.payPeriod p <= ContributionSlider.payPeriod q)%Z ->
      ContributionSlider.contribution p <= ContributionSlider.contribution q)
  /\ (forall (i j : nat) (p q : ContributionSlider.ProjectionPoint),
      data !! i = Some p -> data !! j = Some q -> (i <= j)%nat ->
      ContributionSlider.contribution p <= ContributionSlider.contribution q)
  /\ (forall p : ContributionSlider.ProjectionPoint,
      p ∈ data ->
      ContributionSlider.contribution p
      <= ContributionSlider.effectiveMax props)
  /\ ContributionSlider.projectedYearEnd props percent
     <= ContributionSlider.effectiveMax props
  /\ List.length data
     = Z.to_nat (Qfloor (ContributionSlider.remainingPayPeriods props) + 1).
Proof.
  intros Hs Hp data.
  pose proof (step_nonneg props percent Hs Hp) as Hstep.
  assert (Hidx : forall (i j : nat) p q,
             data !! i = Some p -> data !! j = Some q -> (i <= j)%nat ->
             ContributionSlider.contribution p
             <= ContributionSlider.contribution q).
  { intros i j p q Hi Hj Hij.
    apply calculateProjection_lookup in Hi as (_ & Hci & _).
    apply calculateProjection_lookup in Hj as (_ & Hcj & _).
    rewrite Hci, Hcj. apply Q.min_le_compat_r.
    assert (Hz : inject_Z (Z.of_nat i) <= inject_Z (Z.of_nat j))
      by (rewrite <- Zle_Qle; lia).
    nra. }
  repeat split.
  - intros p q Hin Hiq Hle.
    apply list_elem_of_lookup in Hin as [i Hi].
    apply list_elem_of_lookup in Hiq as [j Hj].
    apply (Hidx i j p q Hi Hj).
    apply calculateProjection_lookup in Hi as (Hpi & _).
    apply calculateProjection_lookup in Hj as (Hpj & _).
    lia.
  - exact Hidx.
  - intros p Hin. apply list_elem_of_lookup in Hin as [i Hi].
    apply calculateProjection_lookup in Hi as (_ & Hc & _).
    rewrite Hc. apply Q.le_min_r.
  - apply Q.le_min_r.
  - apply calculateProjection_length.
Qed.

(** The slider as the page opens, at its initial 6 percent. *)
Lemma C10_projection_series_bounded_monotone_witness :
  let props := Page401k.sliderProps Page401k.initialFormData None in
  (forall p : ContributionSlider.ProjectionPoint,
      p ∈ ContributionSlider.projectionData props 6 ->
      ContributionSlider.contribution p <= 23500)
  /\ List.length (ContributionSlider.projectionData props 6) = 23%nat.
Proof.
  intros props.
  assert (Hs : 0 <= ContributionSlider.annualSalary props)
    by (unfold Qle; simpl; lia).
  assert (Hp : 0 <= 6) by (unfold Qle; simpl; lia).
  pose proof (C10_projection_series_bounded_monotone props 6 Hs Hp)
    as (_ & _ & Hmax & _ & Hlen).
  split.
  - intros p Hin. apply Hmax in Hin.
    apply Qle_trans with (1 := Hin). unfold Qle; simpl; lia.
  - exact Hlen.
Defined.

Example projectionData_three_periods :
  map (fun p => (ContributionSlider.payPeriod p,
                 Qred (ContributionSlider.contribution p)))
    (ContributionSlider.projectionData
       {| ContributionSlider.annualSalary := 260000;
          ContributionSlider.currentPercent := 10;
          ContributionSlider.ytdContribution := 22000;
          ContributionSlider.remainingPayPeriods := 2.5;
          ContributionSlider.recommendedPercent := 10;
          ContributionSlider.maxContribution := None;
          ContributionSlider.catchUpEligible := None |} 10)
  = [(0%Z, 22000); (1%Z, 23000); (2%Z, 23500)].
Proof. vm_compute. reflexivity. Qed.

(** *** The estimated tax savings *)

(** C5, as stated, fails: the savings shown are not the projected year-end
    contribution times a marginal rate given to the computation.  With the
    page's initial form and a rate of 24 percent the slider still shows
    23,500 x 0.32 = 7,520 and not 23,500 x 0.24 = 5,640. *)
Lemma C5_tax_savings_rate_counterexample :
  let props := Page401k.sliderProps Page401k.initialFormData None in
  ContributionSlider.taxSavings props 6 == 7520
  /\ ContributionSlider.projectedYearEnd props 6 * 0.24 == 5640
  /\ ~ (forall rate : Q,
          ContributionSlider.taxSavings props 6
          == ContributionSlider.projectedYearEnd props 6 * rate).
Proof.
  intros props. split; [| split].
  - vm_compute. reflexivity.
  - vm_compute. reflexivity.
  - intros H. specialize (H 0.24). vm_compute in H. discriminate.
Qed.

(** C5, amended.  The estimated tax savings are the projected year-end
    contribution times 0.32, the marginal rate fixed in the slider: they are
    0.32 times the capped projection for every input, so at most 0.32 times
    the effective maximum, and no rate enters the computation. *)
Theorem C5_tax_savings_fixed_rate
    (props : ContributionSlider.ContributionSliderProps) (percent : Q) :
  ContributionSlider.taxSavings props percent
  == ContributionSlider.projectedYearEnd props percent * 0.32
  /\ ContributionSlider.taxSavings props percent
     == 0.32
        * Qmin (ContributionSlider.effectiveMax props)
            (ContributionSlider.ytdContribution props
             + (ContributionSlider.annualSalary props / 26) * percent / 100
               * ContributionSlider.remainingPayPeriods props)
  /\ ContributionSlider.taxSavings props percent
     <= 0.32 * ContributionSlider.effectiveMax props.
Proof.
  pose proof (projectedYearEnd_min props percent) as Heq.
  pose proof (projectedYearEnd_le_max props percent) as Hle.
  unfold ContributionSlider.taxSavings. split; [| split].
  - reflexivity.
  - rewrite Heq. ring.
  - lra.
Qed.

(** ** The quarterly page *)

Lemma fold_total_amount (es : list Api.QuarterlyEstimate) (acc : Q) :
  fold_left (fun sum e => sum + Api.total_amount e) es acc
  == acc + fold_right Qplus 0 (map Api.total_amount es).
Proof.
  revert acc. induction es as [| e es IH]; intros acc; simpl.
  - ring.
  - rewrite IH. ring.
Qed.

(** The "Total Annual Estimate" is the sum of the quarterly totals. *)
Lemma totalAnnual_sum (estimates : option (list Api.QuarterlyEstimate)) :
  QuarterlyPage.totalAnnual estimates
  == fold_right Qplus 0
       (map Api.total_amount (QuarterlyPage.displayEstimates estimates)).
Proof.
  unfold QuarterlyPage.totalAnnual. rewrite fold_total_amount. ring.
Qed.

(** The figure shown under "90% Current Year Safe Harbor" is four times 90
    percent of the annual total, for every list of estimates. *)
Lemma safeHarborCurrentYearShown_fourfold
    (estimates : option (list Api.QuarterlyEstimate)) :
  QuarterlyPage.safeHarborCurrentYearShown estimates
  == 4 * (0.9 * QuarterlyPage.totalAnnual estimates).
Proof. unfold QuarterlyPage.safeHarborCurrentYearShown. ring. Qed.

(** Whenever the annual total is not zero, the figure shown differs from 90
    percent of it. *)
Lemma safeHarborCurrentYearShown_differs
    (estimates : option (list Api.QuarterlyEstimate)) :
  ~ QuarterlyPage.totalAnnual estimates == 0 ->
  ~ QuarterlyPage.safeHarborCurrentYearShown estimates
    == 0.9 * QuarterlyPage.totalAnnual estimates.
Proof.
  intros Hnz H. rewrite safeHarborCurrentYearShown_fourfold in H.
  apply Hnz. lra.
Qed.

(** C1.  The code at the page's own estimates (four quarters of 18,900):
    the annual liability is 75,600 and 90 percent of it 68,040, which is
    also the smaller of the two safe-harbor amounts, yet the figure shown
    as the 90 percent requirement is 272,160; the 110 percent figure is
    1.1 x 165,000. *)
Theorem C1_safe_harbor_current_year_is_fourfold :
  QuarterlyPage.totalAnnual None == 75600
  /\ 0.9 * QuarterlyPage.totalAnnual None == 68040
  /\ Qmin (0.9 * QuarterlyPage.totalAnnual None) (1.1 * 165000) == 68040
  /\ QuarterlyPage.safeHarborPriorYearShown == 1.1 * 165000
  /\ QuarterlyPage.safeHarborCurrentYearShown None == 272160
  /\ ~ (QuarterlyPage.safeHarborCurrentYearShown None
        == 0.9 * QuarterlyPage.totalAnnual None).
Proof.
  repeat (split; [vm_compute; reflexivity |]).
  intros H. vm_compute in H. discriminate.
Qed.

(** ** Marking a quarter as paid *)

Lemma gtZero_Finite (a : Q) : JsNum.gtZero (JsNum.Finite a) = true <-> 0 < a.
Proof.
  simpl. rewrite negb_true_iff. apply Qle_bool_false.
Qed.

Lemma handleMarkPaid_accepts (quarter : Z)
    (st : QuarterlyCalendar.CalendarState) :
  JsNum.isNaN (JsNum.parseFloat (QuarterlyCalendar.paymentAmount st)) = false ->
  JsNum.gtZero (JsNum.parseFloat (QuarterlyCalendar.paymentAmount st)) = true ->
  QuarterlyCalendar.handleMarkPaid quarter st
  = ({| QuarterlyCalendar.editingQuarter := None;
        QuarterlyCalendar.paymentAmount := "" |},
     Some (quarter, JsNum.parseFloat (QuarterlyCalendar.paymentAmount st))).
Proof.
  intros Hn Hg. unfold QuarterlyCalendar.handleMarkPaid.
  rewrite Hn, Hg. reflexivity.
Qed.

Lemma handleMarkPaid_ignores (quarter : Z)
    (st : QuarterlyCalendar.CalendarState) :
  JsNum.isNaN (JsNum.parseFloat (QuarterlyCalendar.paymentAmount st)) = true
  \/ JsNum.gtZero (JsNum.parseFloat (QuarterlyCalendar.paymentAmount st))
     = false ->
  QuarterlyCalendar.handleMarkPaid quarter st = (st, None).
Proof.
  intros [H | H]; unfold QuarterlyCalendar.handleMarkPaid; rewrite H.
  - reflexivity.
  - now rewrite andb_false_r.
Qed.

Lemma handleMarkPaid_cases (quarter : Z)
    (st : QuarterlyCalendar.CalendarState) :
  let amount := JsNum.parseFloat (QuarterlyCalendar.paymentAmount st) in
  (JsNum.isNaN amount = false /\ JsNum.gtZero amount = true
   /\ QuarterlyCalendar.handleMarkPaid quarter st
      = ({| QuarterlyCalendar.editingQuarter := None;
            QuarterlyCalendar.paymentAmount := "" |},
         Some (quarter, amount)))
  \/ ((JsNum.isNaN amount = true \/ JsNum.gtZero amount = false)
      /\ QuarterlyCalendar.handleMarkPaid quarter st = (st, None)).
Proof.
  intros amount.
  destruct (JsNum.isNaN amount) eqn:Hn.
  - right. split; [now left |].
    apply handleMarkPaid_ignores. now left.
  - destruct (JsNum.gtZero amount) eqn:Hg.
    + left. split; [reflexivity | split; [reflexivity |]].
      now apply handleMarkPaid_accepts.
    + right. split; [now right |].
      apply handleMarkPaid_ignores. now right.
Qed.

(** The test [!isNaN(amount) && amount > 0] on each kind of number. *)
Lemma positive_number_iff (amount : JsNum.JsNumber) :
  JsNum.isNaN amount = false /\ JsNum.gtZero amount = true
  <-> amount = JsNum.PosInfinity
      \/ exists a : Q, amount = JsNum.Finite a /\ 0 < a.
Proof.
  split.
  - intros [Hn Hg]. destruct amount as [| | | a]; try discriminate.
    + now left.
    + right. exists a. split; [reflexivity | now apply gtZero_Finite].
  - intros [-> | (a & -> & Ha)].
    + split; reflexivity.
    + split; [reflexivity | now apply gtZero_Finite].
Qed.

(** C6, as stated, fails: quarter 1 with an amount of exactly 0 has a
    quarter in 1..4 and a non-negative amount, yet the handler makes no
    call and leaves the form as it was. *)
Lemma C6_mark_paid_zero_counterexample :
  let st := {| QuarterlyCalendar.editingQuarter := Some 1%Z;
               QuarterlyCalendar.paymentAmount := "0" |} in
  JsNum.parseFloat (QuarterlyCalendar.paymentAmount st) = JsNum.Finite 0
  /\ QuarterlyCalendar.handleMarkPaid 1 st = (st, None)
  /\ ~ ((1 <= 1 <= 4)%Z /\ 0 <= 0 ->
        exists st',
          QuarterlyCalendar.handleMarkPaid 1 st
          = (st', Some (1%Z, JsNum.Finite 0))).
Proof.
  intros st. split; [| split].
  - vm_compute. reflexivity.
  - vm_compute. reflexivity.
  - intros H.
    assert (Hpre : (1 <= 1 <= 4)%Z /\ 0 <= 0)
      by (split; [lia | apply Qle_refl]).
    destruct (H Hpre) as [st' E]. vm_compute in E. discriminate.
Qed.

(** C6, amended.  The mark-paid handler calls [onMarkPaid quarter amount]
    exactly when the typed amount is a number greater than 0, whatever the
    quarter; it then passes the quarter and the amount on unchanged and
    clears the form.  For an amount of 0, a negative amount or text that is
    not a number it makes no call, raises nothing and leaves the form as it
    was. *)
Theorem C6_mark_paid_handler (quarter : Z)
    (st : QuarterlyCalendar.CalendarState) :
  let amount := JsNum.parseFloat (QuarterlyCalendar.paymentAmount st) in
  ((exists call, snd (QuarterlyCalendar.handleMarkPaid quarter st) = Some call)
   <-> amount = JsNum.PosInfinity
       \/ exists a : Q, amount = JsNum.Finite a /\ 0 < a)
  /\ (forall call,
        snd (QuarterlyCalendar.handleMarkPaid quarter st) = Some call ->
        call = (quarter, amount)
        /\ fst (QuarterlyCalendar.handleMarkPaid quarter st)
           = {| QuarterlyCalendar.editingQuarter := None;
                QuarterlyCalendar.paymentAmount := "" |})
  /\ (snd (QuarterlyCalendar.handleMarkPaid quarter st) = None ->
      fst (QuarterlyCalendar.handleMarkPaid quarter st) = st)
  /\ (forall a : Q,
        amount = JsNum.Finite a -> a <= 0 ->
        QuarterlyCalendar.handleMarkPaid quarter st = (st, None)).
Proof.
  cbv zeta.
  pose proof (handleMarkPaid_cases quarter st) as Hcases. cbv zeta in Hcases.
  pose proof (positive_number_iff
                (JsNum.parseFloat (QuarterlyCalendar.paymentAmount st)))
    as Hpos.
  set (amount := JsNum.parseFloat (QuarterlyCalendar.paymentAmount st)) in *.
  destruct Hcases as [(Hn & Hg & E) | (Hc & E)]; rewrite E; simpl.
  - (* the amount is a number greater than 0 *)
    split; [| split; [| split]].
    + split; [intros _; apply Hpos; now split | intros _; now eexists].
    + intros call H. now injection H as <-.
    + discriminate.
    + intros a Ha Hle. rewrite Ha in Hg. apply gtZero_Finite in Hg.
      exfalso. apply (Qlt_not_le _ _ Hg Hle).
  - (* it is not *)
    split; [| split; [| split]].
    + split; [intros [call H]; discriminate |].
      intros H. apply Hpos in H as [Hn Hg].
      destruct Hc as [Hc | Hc]; congruence.
    + intros call H. discriminate.
    + reflexivity.
    + reflexivity.
Qed.

(** The handler on the amounts "18900", "0", "-5" and "", and on a quarter
    outside 1..4. *)
Lemma C6_mark_paid_handler_witness :
  let editing q s := {| QuarterlyCalendar.editingQuarter := Some q;
                        QuarterlyCalendar.paymentAmount := s |} in
  snd (QuarterlyCalendar.handleMarkPaid 2 (editing 2%Z "18900"))
    = Some (2%Z, JsNum.Finite 18900)
  /\ QuarterlyCalendar.handleMarkPaid 2 (editing 2%Z "0")
     = (editing 2%Z "0", None)
  /\ QuarterlyCalendar.handleMarkPaid 2 (editing 2%Z "-5")
     = (editing 2%Z "-5", None)
  /\ fst (QuarterlyCalendar.handleMarkPaid 2 (editing 2%Z "")) = editing 2%Z ""
  /\ exists call,
       snd (QuarterlyCalendar.handleMarkPaid 7 (editing 7%Z "5")) = Some call.
Proof.
  intros editing. split; [| split; [| split; [| split]]].
  - vm_compute. reflexivity.
  - apply (C6_mark_paid_handler 2 (editing 2%Z "0")) with (a := 0).
    + vm_compute. reflexivity.
    + apply Qle_refl.
  - apply (C6_mark_paid_handler 2 (editing 2%Z "-5")) with (a := -5).
    + vm_compute. reflexivity.
    + vm_compute. discriminate.
  - apply (C6_mark_paid_handler 2 (editing 2%Z "")). vm_compute. reflexivity.
  - apply (C6_mark_paid_handler 7 (editing 7%Z "5")).
    right. exists 5. split; [vm_compute; reflexivity | reflexivity].
Defined.

(** ** Refund or additional tax owed *)

(** The dashboard card presents a non-negative [refund_or_owed] as a refund
    of that amount and a negative one as additional tax owed of its
    absolute value. *)
Lemma refundCard_sign (d : Api.TaxProjection) :
  (0 <= Api.refund_or_owed d ->
     Dashboard.label (Dashboard.refundCard d) = "Projected Refund"
     /\ Dashboard.amount (Dashboard.refundCard d) == Api.refund_or_owed d)
  /\ (Api.refund_or_owed d < 0 ->
     Dashboard.label (Dashboard.refundCard d) = "Additional Owed"
     /\ Dashboard.amount (Dashboard.refundCard d) == - Api.refund_or_owed d).
Proof.
  unfold Dashboard.refundCard; simpl. split; intros H.
  - rewrite (proj2 (Qle_bool_true _ _) H). split; [reflexivity |].
    now apply Qabs_pos.
  - rewrite (proj2 (Qle_bool_false _ _) H). split; [reflexivity |].
    apply Qabs_neg. now apply Qlt_le_weak.
Qed.

(** The caption under the chart agrees with the card when the amount is
    not zero. *)
Lemma comparisonCaption_sign (d : Api.TaxProjection) :
  Api.refund_or_owed d == Api.withheld_ytd d - Api.projected_liability d ->
  (0 < Api.refund_or_owed d ->
     Dashboard.label (TaxProjectionChart.comparisonCaption d)
       = "Projected Refund"
     /\ Dashboard.amount (TaxProjectionChart.comparisonCaption d)
        == Api.refund_or_owed d)
  /\ (Api.refund_or_owed d <= 0 ->
     Dashboard.label (TaxProjectionChart.comparisonCaption d)
       = "Additional Tax Owed"
     /\ Dashboard.amount (TaxProjectionChart.comparisonCaption d)
        == - Api.refund_or_owed d).
Proof.
  intros Hr. unfold TaxProjectionChart.comparisonCaption. split; intros H.
  - assert (Hlt : Api.projected_liability d < Api.withheld_ytd d) by lra.
    rewrite (proj2 (Qle_bool_false _ _) Hlt). simpl.
    split; [reflexivity | lra].
  - assert (Hle : Api.withheld_ytd d <= Api.projected_liability d) by lra.
    rewrite (proj2 (Qle_bool_true _ _) Hle). simpl.
    split; [reflexivity | lra].
Qed.

(** C7.  The code at a projection whose withholding equals the tax
    (refund_or_owed = withheld_ytd - total_tax = 0, a non-negative value):
    the dashboard card presents it as a refund of 0, the caption under the
    chart as additional tax owed of 0. *)
Theorem C7_zero_refund_shown_as_owed_by_chart :
  let d := {| Api.gross_income := 450000;
              Api.federal_tax := 98500;
              Api.california_tax := 42300;
              Api.oklahoma_tax := 8500;
              Api.fica_tax := 18750;
              Api.total_tax := 168050;
              Api.effective_rate := 37.3;
              Api.withheld_ytd := 168050;
              Api.projected_liability := 168050;
              Api.refund_or_owed := 0 |} in
  Api.refund_or_owed d == Api.withheld_ytd d - Api.total_tax d
  /\ 0 <= Api.refund_or_owed d
  /\ Dashboard.refundCard d
     = {| Dashboard.label := "Projected Refund"; Dashboard.amount := 0 |}
  /\ Dashboard.label (TaxProjectionChart.comparisonCaption d)
     = "Additional Tax Owed"
  /\ Dashboard.amount (TaxProjectionChart.comparisonCaption d) == 0.
Proof.
  intros d. split; [| split; [| split; [| split]]].
  - vm_compute. reflexivity.
  - vm_compute. discriminate.
  - vm_compute. reflexivity.
  - vm_compute. reflexivity.
  - vm_compute. reflexivity.
Qed.

Example mockProjection_refund_or_owed :
  Api.refund_or_owed Dashboard.mockProjection
  == Api.withheld_ytd Dashboard.mockProjection
     - Api.total_tax Dashboard.mockProjection
  /\ Dashboard.refundCard Dashboard.mockProjection
     = {| Dashboard.label := "Additional Owed"; Dashboard.amount := 23050 |}.
Proof. split; vm_compute; reflexivity. Qed.

(** ** The tax projection *)

Section Projection.
Import Engine.

Lemma tax_outcome (income : Q) (table : BracketTable) (deduction : Q) :
  (0 <= income ->
     tax income table deduction
     = Ok (bracket_walk table 0 (Qmax 0 (income - deduction))))
  /\ (income < 0 -> tax income table deduction = Err InvalidInput).
Proof using Type.
  unfold tax. split; intros H.
  - now rewrite (proj2 (Qle_bool_true _ _) H).
  - now rewrite (proj2 (Qle_bool_false _ _) H).
Qed.

Lemma mapM_jurisdiction_tax_ok (income : Q) (js : list JurisdictionConfig) :
  0 <= income ->
  exists taxes, mapM (jurisdiction_tax income) js = Ok taxes.
Proof using Type.
  intros H. induction js as [| j js [taxes IH]]; simpl.
  - now eexists.
  - unfold jurisdiction_tax at 1.
    rewrite (proj1 (tax_outcome income _ _) H). simpl.
    rewrite IH. simpl. now eexists.
Qed.

Lemma mapM_jurisdiction_tax_err (income : Q) (js : list JurisdictionConfig)
    (e : EngineError) :
  mapM (jurisdiction_tax income) js = Err e -> e = InvalidInput.
Proof using Type.
  destruct (Qlt_le_dec income 0) as [Hneg | Hpos].
  - destruct js as [| j js]; simpl; [discriminate |].
    unfold jurisdiction_tax at 1.
    rewrite (proj2 (tax_outcome income _ _) Hneg). simpl. congruence.
  - destruct (mapM_jurisdiction_tax_ok income js Hpos) as [taxes ->].
    discriminate.
Qed.

(** The guard of the effective rate covers the one case in which the
    division would fail. *)
Lemma effective_rate_of_ok (total gross : Q) :
  exists er,
    effective_rate_of total gross = Ok er
    /\ (gross == 0 -> er == 0)
    /\ (~ gross == 0 -> er == total / gross).
Proof using Type.
  unfold effective_rate_of, checked_div.
  destruct (Qeq_bool gross 0) eqn:E.
  - apply Qeq_bool_iff in E. exists 0. split; [reflexivity |].
    split; [reflexivity | intros H; contradiction].
  - exists (total / gross). split; [reflexivity |].
    split; [| reflexivity].
    intros H. apply Qeq_bool_iff in H. congruence.
Qed.
End Projection.

(** C9.  For every projection input the effective rate of the result is
    [total_tax / gross_income], and 0 when the gross income is 0; the
    projection never fails on a division by zero, and it returns a result
    whenever the incomes are not negative. *)
Theorem C9_effective_rate_no_division_by_zero
    (input : Engine.ProjectionInput) :
  Engine.project input <> Engine.Err Engine.ZeroDivision
  /\ (forall r : Engine.ProjectionResult,
        Engine.project input = Engine.Ok r ->
        (Engine.gross_ytd_income input == 0 -> Engine.effective_rate r == 0)
        /\ (~ Engine.gross_ytd_income input == 0 ->
            Engine.effective_rate r
            == Engine.total_tax r / Engine.gross_ytd_income input))
  /\ (0 <= Engine.gross_ytd_income input ->
      0 <= Engine.full_year_income_estimate input ->
      exists r, Engine.project input = Engine.Ok r).
Proof.
  unfold Engine.project.
  destruct (negb (Qle_bool 0 (Engine.gross_ytd_income input))) eqn:Hg.
  - split; [discriminate | split; [discriminate |]].
    intros H. apply Qle_bool_true in H. rewrite H in Hg. discriminate.
  - destruct (Engine.mapM
                (Engine.jurisdiction_tax
                   (Engine.full_year_income_estimate input))
                (Engine.jurisdictions input)) as [taxes | e] eqn:Ht;
      cbn [Engine.bind].
    + set (total := Engine.sumQ (map snd taxes)
                    + Engine.fica_total
                        (Engine.fica (Engine.full_year_income_estimate input)
                           (Engine.fica_config input))).
      destruct (effective_rate_of_ok total (Engine.gross_ytd_income input))
        as (er & -> & H0 & H1).
      cbn [Engine.bind]. split; [discriminate | split].
      * intros r Hr. injection Hr as <-. simpl. split; assumption.
      * intros _ _. now eexists.
    + pose proof (mapM_jurisdiction_tax_err _ _ _ Ht) as ->.
      split; [discriminate | split; [discriminate |]].
      intros _ Hfull.
      destruct (mapM_jurisdiction_tax_ok _ (Engine.jurisdictions input) Hfull)
        as [taxes Ht'].
      congruence.
Qed.

(** A projection over the federal table with nothing earned to date, and
    one with 450,000 earned. *)
Lemma C9_effective_rate_no_division_by_zero_witness :
  let input g :=
    {| Engine.gross_ytd_income := g;
       Engine.withholding_ytd := [("federal"%string, 98500)];
       Engine.full_year_income_estimate := 450000;
       Engine.jurisdictions :=
         [ {| Engine.identifier := "federal";
              Engine.brackets := Engine.federal_2025;
              Engine.standard_deduction := Some 30000 |} ];
       Engine.fica_config := Engine.fica_2025 |} in
  (exists r, Engine.project (input 0) = Engine.Ok r
             /\ Engine.effective_rate r == 0)
  /\ (exists r, Engine.project (input 450000) = Engine.Ok r
                /\ Engine.effective_rate r == Engine.total_tax r / 450000).
Proof.
  intros input. split.
  - destruct (C9_effective_rate_no_division_by_zero (input 0))
      as (_ & Hrate & Hex).
    destruct Hex as [r Hr]; [vm_compute; discriminate ..|].
    exists r. split; [exact Hr |]. now apply (Hrate r Hr).
  - destruct (C9_effective_rate_no_division_by_zero (input 450000))
      as (_ & Hrate & Hex).
    destruct Hex as [r Hr]; [vm_compute; discriminate ..|].
    exists r. split; [exact Hr |]. apply (Hrate r Hr).
    vm_compute. discriminate.
Defined.

Example tax_at_second_boundary :
  exists t, Engine.tax 96950 Engine.federal_2025 0 = Engine.Ok t
            /\ t == 2385 + 8772.
Proof. eexists. split; [reflexivity | vm_compute; reflexivity]. Qed.

(** ** The RSU vesting summary *)

Section Vesting.
Import Engine.

Lemma sum_shares_app (l1 l2 : list RSUVestingEvent) :
  sum_shares (l1 ++ l2) = (sum_shares l1 + sum_shares l2)%Z.
Proof using Type.
  induction l1 as [| e l1 IH]; simpl; [reflexivity |].
  unfold sum_shares in *. simpl. rewrite IH. lia.
Qed.

Lemma sum_shares_Permutation (l1 l2 : list RSUVestingEvent) :
  l1 ≡ₚ l2 -> sum_shares l1 = sum_shares l2.
Proof using Type.
  induction 1 as [| e l1 l2 _ IH | e1 e2 l | l1 l2 l3 _ IH1 _ IH2];
    unfold sum_shares in *; simpl.
  - reflexivity.
  - now rewrite IH.
  - lia.
  - congruence.
Qed.

(** Every event is either past or upcoming, never both; the shares of all
    events are those of the past ones plus those of the upcoming ones. *)
Lemma sum_shares_partition (now : Date) (events : list RSUVestingEvent) :
  sum_shares events
  = (sum_shares (filter (is_past now) events)
     + sum_shares (filter (is_upcoming now) events))%Z.
Proof using Type.
  induction events as [| e events IH]; [reflexivity |].
  rewrite !filter_cons.
  destruct (decide (is_past now e)) as [Hp | Hp];
    destruct (decide (is_upcoming now e)) as [Hu | Hu];
    unfold is_past, is_upcoming in Hp, Hu; try lia;
    unfold sum_shares in *; simpl; rewrite IH; lia.
Qed.
End Vesting.

(** C8.  For every list of vesting events and every [now], the summary has
    total_shares_pending = total_shares_granted - total_shares_vested, and
    that number is the sum of shares_vesting over the upcoming events of the
    summary, which are exactly the events with vesting_date >= now. *)
Theorem C8_rsu_pending_is_upcoming_shares
    (events : list Engine.RSUVestingEvent) (now : Engine.Date) :
  let s := Engine.summarize events now in
  Engine.total_shares_pending s
  = (Engine.total_shares_granted s - Engine.total_shares_vested s)%Z
  /\ Engine.total_shares_pending s = Engine.sum_shares (Engine.upcoming_vests s)
  /\ (forall e : Engine.RSUVestingEvent,
        e ∈ Engine.upcoming_vests s
        <-> e ∈ events /\ (now <= Engine.vesting_date e)%Z)
  /\ Engine.upcoming_vests s ≡ₚ filter (Engine.is_upcoming now) events.
Proof.
  intros s. subst s. unfold Engine.summarize. simpl.
  pose proof (merge_sort_Permutation Engine.vests_no_later
                (filter (Engine.is_upcoming now) events)) as Hperm.
  split; [reflexivity | split; [| split]].
  - rewrite (sum_shares_Permutation _ _ Hperm).
    rewrite (sum_shares_partition now events) at 1. lia.
  - intros e. rewrite Hperm. rewrite list_elem_of_filter.
    unfold Engine.is_upcoming. tauto.
  - exact Hperm.
Qed.

Lemma summarize_lists_sorted
    (events : list Engine.RSUVestingEvent) (now : Engine.Date) :
  Sorted Engine.vests_no_later
    (Engine.upcoming_vests (Engine.summarize events now))
  /\ Sorted Engine.vests_no_earlier
       (Engine.past_vests (Engine.summarize events now)).
Proof.
  assert (T1 : Total Engine.vests_no_later)
    by (intros a b; unfold Engine.vests_no_later; lia).
  assert (T2 : Total Engine.vests_no_earlier)
    by (intros a b; unfold Engine.vests_no_earlier; lia).
  split; simpl; apply Sorted_merge_sort; assumption.
Qed.

Example summarize_three_events :
  let ev (i g : string) (d n : Z) :=
    {| Engine.event_id := i; Engine.grant_id := g; Engine.symbol := "GOOG";
       Engine.grant_date := 0%Z; Engine.vesting_date := d;
       Engine.shares_vesting := n; Engine.fmv_at_vest := 140.5;
       Engine.total_value := inject_Z n * 140.5 |} in
  let s := Engine.summarize
             [ev "a" "GRANT-001" 300 125; ev "b" "GRANT-001" 100 125;
              ev "c" "GRANT-002" 200 50]%Z 200%Z in
  (Engine.total_grants s, Engine.total_shares_granted s,
   Engine.total_shares_vested s, Engine.total_shares_pending s,
   map Engine.event_id (Engine.upcoming_vests s),
   map Engine.event_id (Engine.past_vests s))
  = (2%nat, 300%Z, 125%Z, 175%Z, ["c"; "a"]%string, ["b"]%string).
Proof. vm_compute. reflexivity. Qed.

(** ** The 401(k) optimizer *)

Section OptimizerFacts.
Import Engine.
Variable config : OptimizerConfig.
Variable input : OptimizerInput.

Hypothesis periods_positive : 0 < periods_per_year config.
Hypothesis salary_positive : 0 < annual_salary input.
Hypothesis periods_left : 0 < remaining_pay_periods input.

Let M := max_contribution_of config input.
Let y := ytd_contribution input.
Let s := per_period_salary config input * remaining_pay_periods input.

Lemma full_pace_positive : 0 < s.
Proof using periods_positive salary_positive periods_left.
  unfold s, per_period_salary.
  apply Qmult_lt_0_compat; [| exact periods_left].
  apply Qlt_shift_div_l; [exact periods_positive |].
  now rewrite Qmult_0_l.
Qed.

Lemma year_end_pace_linear (p : Q) :
  year_end_pace config input p == y + s / 100 * p.
Proof using Type.
  unfold year_end_pace, s, y. field.
Qed.

Lemma year_end_pace_mono (p q : Q) :
  year_end_pace config input p <= year_end_pace config input q <-> p <= q.
Proof using periods_positive salary_positive periods_left.
  assert (Hk : 0 < s / 100).
  { apply Qlt_shift_div_l; [reflexivity |].
    rewrite Qmult_0_l. exact full_pace_positive. }
  rewrite !year_end_pace_linear.
  rewrite <- (Qmult_le_l p q (s / 100) Hk).
  split; intros H; lra.
Qed.

(** The recommended percent solves the equation it is defined by. *)
Lemma recommended_percent_solves :
  year_end_pace config input (recommended_percent_of config input)
  == Qmin M (year_end_pace config input 100).
Proof using periods_positive salary_positive periods_left.
  pose proof full_pace_positive as Hs.
  unfold recommended_percent_of.
  assert (E : Qeq_bool (remaining_pay_periods input) 0 = false).
  { destruct (Qeq_bool (remaining_pay_periods input) 0) eqn:E;
      [| reflexivity].
    apply Qeq_bool_iff in E. rewrite E in periods_left.
    exfalso. apply (Qlt_irrefl _ periods_left). }
  rewrite E. fold M.
  set (T := Qmin M (year_end_pace config input 100)).
  rewrite year_end_pace_linear. fold s y.
  field. intros H. rewrite H in Hs. apply (Qlt_irrefl _ Hs).
Qed.

(** The recommended percent is the only solution of that equation. *)
Lemma recommended_percent_unique (p : Q) :
  year_end_pace config input p == Qmin M (year_end_pace config input 100) ->
  p == recommended_percent_of config input.
Proof using periods_positive salary_positive periods_left.
  intros Hp. pose proof recommended_percent_solves as Hsolve.
  apply Qle_antisym; apply year_end_pace_mono;
    rewrite Hp, Hsolve; apply Qle_refl.
Qed.

Lemma recommended_percent_at_most_100 :
  recommended_percent_of config input <= 100.
Proof using periods_positive salary_positive periods_left.
  apply year_end_pace_mono. rewrite recommended_percent_solves.
  apply Q.le_min_r.
Qed.

(** The recommended percent is negative exactly when more than the maximum
    has been contributed already. *)
Lemma recommended_percent_nonneg_iff :
  0 <= recommended_percent_of config input <-> y <= M.
Proof using periods_positive salary_positive periods_left.
  assert (H0 : year_end_pace config input 0 == y).
  { rewrite year_end_pace_linear. ring. }
  assert (H100 : y <= year_end_pace config input 100).
  { rewrite <- H0. apply year_end_pace_mono. discriminate. }
  split.
  - intros Hrec. apply year_end_pace_mono in Hrec.
    rewrite recommended_percent_solves, H0 in Hrec.
    apply Qle_trans with (1 := Hrec). apply Q.le_min_l.
  - intros HyM. apply year_end_pace_mono.
    rewrite recommended_percent_solves, H0.
    apply Q.min_glb; assumption.
Qed.

Lemma optimize_minimal_percent :
  let r := optimize config input in
  projected_year_end_contribution r == Qmin M (year_end_pace config input 100)
  /\ projected_year_end_contribution r <= max_contribution r
  /\ (forall p : Q,
        p <= 100 ->
        projected_at config input p <= projected_year_end_contribution r)
  /\ (forall p : Q,
        projected_at config input p == projected_year_end_contribution r ->
        recommended_percent r <= p).
Proof using periods_positive salary_positive periods_left.
  simpl. fold M.
  pose proof recommended_percent_solves as Hsolve.
  set (rec := recommended_percent_of config input) in *.
  set (T := Qmin M (year_end_pace config input 100)) in *.
  assert (HT : T <= M) by apply Q.le_min_l.
  assert (Hproj : projected_at config input rec == T).
  { unfold projected_at. fold M.
    rewrite (Qmin_eq_compat M M _ T (Qeq_refl M) Hsolve).
    apply Q.min_r. exact HT. }
  split; [exact Hproj | split; [| split]].
  - rewrite Hproj. exact HT.
  - intros p Hp. rewrite Hproj. unfold projected_at, T. fold M.
    apply Q.min_le_compat_l. now apply year_end_pace_mono.
  - intros p Hp. rewrite Hproj in Hp.
    apply year_end_pace_mono. rewrite Hsolve. rewrite <- Hp.
    apply Q.le_min_r.
Qed.
End OptimizerFacts.

(** With no pay period left the optimizer hands back the current percent,
    and the projection is the same at every percent. *)
Lemma optimize_no_periods_left
    (config : Engine.OptimizerConfig) (input : Engine.OptimizerInput) :
  Engine.remaining_pay_periods input == 0 ->
  let r := Engine.optimize config input in
  Engine.recommended_percent r == Engine.current_contribution_percent input
  /\ forall p : Q,
       Engine.projected_at config input p
       == Engine.projected_year_end_contribution r.
Proof.
  intros Hrem. simpl.
  assert (Hpace : forall p : Q,
             Engine.year_end_pace config input p
             == Engine.ytd_contribution input).
  { intros p. unfold Engine.year_end_pace. rewrite Hrem. ring. }
  split.
  - unfold Engine.recommended_percent_of.
    apply Qeq_bool_iff in Hrem. rewrite Hrem. reflexivity.
  - intros p. unfold Engine.projected_at.
    apply Qmin_eq_compat; [reflexivity |].
    rewrite !Hpace. reflexivity.
Qed.

(** For the form the page opens with, the slider's projection and the
    optimizer's are the same function of the percent. *)
Lemma slider_projection_is_projected_at
    (marginal_rate percent : Q)
    (optimization : option Page401k.Optimizer401kResult) :
  ContributionSlider.projectedYearEnd
    (Page401k.sliderProps Page401k.initialFormData optimization) percent
  == Engine.projected_at (Engine.config2025 marginal_rate)
       {| Engine.annual_salary := 450000;
          Engine.current_contribution_percent := 6;
          Engine.ytd_contribution := 2711.55;
          Engine.remaining_pay_periods := 22;
          Engine.age := 35 |} percent.
Proof.
  rewrite projectedYearEnd_min. unfold Engine.projected_at.
  apply Qmin_eq_compat; [vm_compute; reflexivity |].
  unfold Engine.year_end_pace, Engine.per_period_salary. simpl.
  reflexivity.
Qed.




(** The result the page shows before the server has answered, next to the
    optimizer's for the same form: the maximum, the remaining room, the
    projection and the savings at 32 percent agree; the page's 13.5 percent
    is larger than the least percent that reaches the maximum. *)
Lemma mockOptimization_and_optimize :
  let shown := Page401k.mockOptimization Page401k.initialFormData in
  let r := Engine.optimize (Engine.config2025 0.32)
             {| Engine.annual_salary := 450000;
                Engine.current_contribution_percent := 6;
                Engine.ytd_contribution := 2711.55;
                Engine.remaining_pay_periods := 22;
                Engine.age := 35 |} in
  Page401k.max_contribution shown == Engine.max_contribution r
  /\ Page401k.remaining_contribution_room shown == Engine.remaining_room r
  /\ Page401k.projected_year_end_contribution shown
     == Engine.projected_year_end_contribution r
  /\ Page401k.tax_savings shown == Engine.tax_savings r
  /\ Engine.recommended_percent r == 5404997 / 990000
  /\ Engine.recommended_percent r < Page401k.recommended_percent shown.
Proof.
  repeat (split; [vm_compute; reflexivity |]). vm_compute. reflexivity.
Qed.

(* ===================================================================== *)
(** * Part III: further properties of the front end                      *)
(* ===================================================================== *)

(** ** The contribution slider, continued *)

(** X2.  For a non-negative salary and number of pay periods left, a larger
    contribution percent never lowers the projected year-end
    contribution. *)
Theorem X2_projected_year_end_monotone
    (props : ContributionSlider.ContributionSliderProps) (p q : Q) :
  0 <= ContributionSlider.annualSalary props ->
  0 <= ContributionSlider.remainingPayPeriods props ->
  p <= q ->
  ContributionSlider.projectedYearEnd props p
  <= ContributionSlider.projectedYearEnd props q.
Proof.
  intros Hs Hr Hpq. unfold ContributionSlider.projectedYearEnd.
  apply Q.min_le_compat_r.
  assert (Hk : 0 <= ContributionSlider.annualSalary props / 26
                    * ContributionSlider.remainingPayPeriods props).
  { apply Qmult_le_0_compat; [| exact Hr].
    apply Qle_shift_div_l; [reflexivity |]. now rewrite Qmult_0_l. }
  set (k := ContributionSlider.annualSalary props / 26
            * ContributionSlider.remainingPayPeriods props) in *.
  assert (E : forall x,
             ContributionSlider.annualSalary props / 26 * (x / 100)
             * ContributionSlider.remainingPayPeriods props
             == k * (1 # 100) * x) by (intros x; unfold k; field).
  rewrite !E.
  assert (Hk' : 0 <= k * (1 # 100))
    by (apply Qmult_le_0_compat; [exact Hk | discriminate]).
  assert (H : k * (1 # 100) * p <= k * (1 # 100) * q).
  { rewrite (Qmult_comm _ p), (Qmult_comm _ q).
    now apply Qmult_le_compat_r. }
  lra.
Qed.

Lemma X2_projected_year_end_monotone_witness :
  let props := Page401k.sliderProps Page401k.initialFormData None in
  ContributionSlider.projectedYearEnd props 2
  <= ContributionSlider.projectedYearEnd props 6.
Proof.
  intros props.
  apply (X2_projected_year_end_monotone props 2 6); vm_compute; discriminate.
Defined.

(** X3.  "Will max out!" is shown exactly when the contribution paced to the
    end of the year, before capping, reaches the effective maximum; the
    projected year-end contribution is then that maximum. *)
Theorem X3_will_max_out
    (props : ContributionSlider.ContributionSliderProps) (percent : Q) :
  (ContributionSlider.willMaxOut props percent = true
   <-> ContributionSlider.effectiveMax props
       <= ContributionSlider.ytdContribution props
          + (ContributionSlider.annualSalary props / 26) * (percent / 100)
            * ContributionSlider.remainingPayPeriods props)
  /\ (ContributionSlider.willMaxOut props percent = true ->
      ContributionSlider.projectedYearEnd props percent
      == ContributionSlider.effectiveMax props).
Proof.
  unfold ContributionSlider.willMaxOut, ContributionSlider.projectedYearEnd.
  rewrite Qle_bool_true. split.
  - rewrite Q.min_glb_iff. split; [tauto |].
    intros H. split; [exact H | apply Qle_refl].
  - intros H. apply Qle_antisym; [apply Q.le_min_r | exact H].
Qed.

(** The page's initial form at 6 percent reaches the maximum. *)
Lemma X3_will_max_out_witness :
  ContributionSlider.projectedYearEnd
    (Page401k.sliderProps Page401k.initialFormData None) 6
  == ContributionSlider.effectiveMax
       (Page401k.sliderProps Page401k.initialFormData None).
Proof.
  apply (X3_will_max_out
           (Page401k.sliderProps Page401k.initialFormData None) 6).
  reflexivity.
Defined.

(** X4.  The percent typed into the field is clamped: the new percent is
    not a number only if the typed value is not, it is never infinite,
    otherwise it lies between 0 and 100, and a value between 0 and 100 is
    kept as it is. *)
Theorem X4_percent_input_clamped (value : JsNum.JsNumber) :
  (SliderInput.onPercentInput value = JsNum.NaN <-> value = JsNum.NaN)
  /\ SliderInput.onPercentInput value <> JsNum.PosInfinity
  /\ SliderInput.onPercentInput value <> JsNum.NegInfinity
  /\ (forall q : Q,
        SliderInput.onPercentInput value = JsNum.Finite q ->
        0 <= q /\ q <= 100)
  /\ (forall q : Q,
        value = JsNum.Finite q -> 0 <= q -> q <= 100 ->
        exists q' : Q,
          SliderInput.onPercentInput value = JsNum.Finite q' /\ q' == q).
Proof.
  unfold SliderInput.onPercentInput.
  destruct value as [| | | v]; simpl.
  - repeat split; try discriminate.
  - split; [split; discriminate |].
    split; [discriminate | split; [discriminate |]].
    split; [| discriminate].
    intros q H. injection H as <-. split; [discriminate | apply Qle_refl].
  - split; [split; discriminate |].
    split; [discriminate | split; [discriminate |]].
    split; [| discriminate].
    intros q H. injection H as <-.
    split; [apply Q.min_glb; discriminate | apply Q.le_min_l].
  - split; [split; discriminate |].
    split; [discriminate | split; [discriminate |]].
    split.
    + intros q H. injection H as <-. split.
      * apply Q.min_glb; [discriminate | apply Q.le_max_l].
      * apply Q.le_min_l.
    + intros q H H0 H100. injection H as ->. eexists. split; [reflexivity |].
      rewrite (Q.max_r 0 q H0). now apply Q.min_r.
Qed.

Lemma X4_percent_input_clamped_witness :
  (exists q', SliderInput.onPercentInput (JsNum.Finite 13.5) = JsNum.Finite q'
              /\ q' == 13.5)
  /\ (forall q, SliderInput.onPercentInput (JsNum.Finite 250) = JsNum.Finite q
                -> 0 <= q /\ q <= 100).
Proof.
  split.
  - apply (X4_percent_input_clamped (JsNum.Finite 13.5));
      [reflexivity | discriminate | discriminate].
  - apply (X4_percent_input_clamped (JsNum.Finite 250)).
Defined.

(** ** The cards of the 401(k) page *)

Lemma sliderProps_effectiveMax (formData : Page401k.FormData)
    (optimization : option Page401k.Optimizer401kResult) :
  ContributionSlider.effectiveMax (Page401k.sliderProps formData optimization)
  == Page401k.effectiveMax formData.
Proof.
  unfold Page401k.effectiveMax.
  destruct (Page401k.catchUpEligible formData) eqn:E.
  - rewrite (effectiveMax_catch_up _ 23500); simpl;
      [reflexivity | reflexivity | now rewrite E].
  - rewrite (effectiveMax_no_catch_up _ 23500); simpl;
      [reflexivity | reflexivity | now rewrite E].
Qed.

(** X6.  The "Remaining Room" of the page and that of the slider it embeds
    are the same amount, the effective maximum less the contribution to
    date; it is not clamped, so it is negative exactly when more than the
    maximum has been contributed. *)
Theorem X6_remaining_room_agrees (formData : Page401k.FormData)
    (optimization : option Page401k.Optimizer401kResult) :
  Page401kCards.remainingRoomShown formData
  == ContributionSlider.remainingRoomShown
       (Page401k.sliderProps formData optimization)
  /\ (Page401kCards.remainingRoomShown formData < 0
      <-> Page401k.effectiveMax formData < Page401k.ytd_contribution formData).
Proof.
  unfold Page401kCards.remainingRoomShown,
    ContributionSlider.remainingRoomShown.
  rewrite sliderProps_effectiveMax. simpl. split; [reflexivity |].
  split; intros H; lra.
Qed.

(** In the "If You Max Out" table the total tax savings are the sum of
    the federal and the California savings shown above it. *)
Lemma totalSavingsShown_is_sum (formData : Page401k.FormData) :
  Page401k.totalSavingsShown formData
  == Page401k.federalSavingsShown formData
     + Page401k.californiaSavingsShown formData.
Proof.
  unfold Page401k.totalSavingsShown, Page401k.federalSavingsShown,
    Page401k.californiaSavingsShown.
  ring.
Qed.

(** ** The quarterly page, continued *)

(** X7.  The quarters counted as paid and the payments counted as remaining
    are together all the estimates shown. *)
Theorem X7_paid_and_unpaid_counts
    (estimates : option (list Api.QuarterlyEstimate)) :
  (QuarterlyCards.paidCount estimates + QuarterlyCards.unpaidCount estimates
   = List.length (QuarterlyPage.displayEstimates estimates))%nat.
Proof.
  unfold QuarterlyCards.paidCount, QuarterlyCards.unpaidCount.
  induction (QuarterlyPage.displayEstimates estimates) as [| e es IH];
    [reflexivity |].
  rewrite !filter_cons.
  destruct (decide (Api.paid e = true)) as [Hp | Hp];
    destruct (decide (negb (Api.paid e) = true)) as [Hn | Hn];
    destruct (Api.paid e); simpl in *; try congruence; lia.
Qed.

(** *** The status of a quarter *)

Section QuarterStatusFacts.
Import Api QuarterlyCards.
Variable getTime : string -> option Z.

Lemma isPastDue_overdue (today : Z) (q : QuarterlyEstimate) :
  isPastDue getTime today q = true
  <-> getQuarterStatus getTime today q = overdue.
Proof using Type.
  unfold isPastDue, getQuarterStatus.
  destruct (paid q); simpl; [split; discriminate |].
  destruct (getTime (due_date q)) as [d |]; [| split; discriminate].
  destruct (d <? today)%Z; [tauto |].
  destruct (d - today <? 30 * 24 * 60 * 60 * 1000)%Z; split; discriminate.
Qed.
End QuarterStatusFacts.

(** X9.  The number of overdue payments announced on the dashboard is the
    number of quarters the calendar marks as overdue at the same time, and
    it is 0 while the estimates have not arrived. *)
Theorem X9_dashboard_counts_overdue_quarters
    (getTime : string -> option Z) (today : Z) :
  (forall estimates : list Api.QuarterlyEstimate,
      QuarterlyCards.unpaidQuarters getTime today (Some estimates)
      = List.length
          (filter
             (fun q => QuarterlyCards.getQuarterStatus getTime today q
                       = QuarterlyCards.overdue)
             estimates))
  /\ QuarterlyCards.unpaidQuarters getTime today None = 0%nat.
Proof.
  split; [| reflexivity].
  intros estimates. simpl.
  induction estimates as [| q qs IH]; [reflexivity |].
  rewrite !filter_cons.
  pose proof (isPastDue_overdue getTime today q) as Hq.
  destruct (decide (QuarterlyCards.isPastDue getTime today q = true));
    destruct (decide (QuarterlyCards.getQuarterStatus getTime today q
                      = QuarterlyCards.overdue));
    try tauto; simpl; now rewrite IH.
Qed.

(** X10.  The status of a quarter only moves forward in time: a paid quarter
    stays paid, an overdue quarter stays overdue, an upcoming quarter stays
    upcoming or becomes overdue, and a quarter that is future later on was
    future before. *)
Theorem X10_quarter_status_moves_forward
    (getTime : string -> option Z) (today later : Z)
    (estimate : Api.QuarterlyEstimate) :
  (today <= later)%Z ->
  let before := QuarterlyCards.getQuarterStatus getTime today estimate in
  let after := QuarterlyCards.getQuarterStatus getTime later estimate in
  (before = QuarterlyCards.paidStatus <-> after = QuarterlyCards.paidStatus)
  /\ (before = QuarterlyCards.overdue -> after = QuarterlyCards.overdue)
  /\ (before = QuarterlyCards.upcoming ->
      after = QuarterlyCards.upcoming \/ after = QuarterlyCards.overdue)
  /\ (after = QuarterlyCards.future -> before = QuarterlyCards.future).
Proof.
  intros Hle. unfold QuarterlyCards.getQuarterStatus.
  destruct (Api.paid estimate); simpl.
  - repeat split; intros; try discriminate; reflexivity.
  - destruct (getTime (Api.due_date estimate)) as [d |].
    + destruct (Z.ltb_spec d today); destruct (Z.ltb_spec d later);
        destruct (Z.ltb_spec (d - today) (30 * 24 * 60 * 60 * 1000));
        destruct (Z.ltb_spec (d - later) (30 * 24 * 60 * 60 * 1000));
        repeat split; intros; try discriminate; try reflexivity;
        try (now left); try (now right); lia.
    + repeat split; intros; try discriminate; reflexivity.
Qed.

(** A quarter due on day 100 seen on day 80 and on day 101, in
    milliseconds. *)
Lemma X10_quarter_status_moves_forward_witness :
  let getTime (s : string) := Some 8640000000%Z in
  let estimate := QuarterlyPage.mockQuarter 2 "2025-06-15" false None in
  QuarterlyCards.getQuarterStatus getTime 6912000000 estimate
  = QuarterlyCards.upcoming
  /\ QuarterlyCards.getQuarterStatus getTime 8726400000 estimate
     = QuarterlyCards.overdue.
Proof.
  intros getTime estimate.
  assert (Hle : (6912000000 <= 8726400000)%Z) by lia.
  destruct (X10_quarter_status_moves_forward getTime _ _ estimate Hle)
    as (_ & _ & Hup & _).
  split; [reflexivity |].
  destruct (Hup eq_refl) as [H | H]; [discriminate H | exact H].
Defined.

(** *** What the mark-paid field reads from its text *)

Section ParseFloatFacts.
Import JsNum.

Lemma digitValue_nonneg (c : ascii) :
  isDigit c = true -> (0 <= digitValue c)%Z.
Proof using Type.
  unfold isDigit, digitValue. intros H.
  apply andb_true_iff in H as [H _]. apply N.leb_le in H. lia.
Qed.

Lemma takeDigits_isDigit (cs : list ascii) :
  Forall (fun c => isDigit c = true) (fst (takeDigits cs)).
Proof using Type.
  induction cs as [| c cs IH]; simpl; [constructor |].
  destruct (isDigit c) eqn:E; [| constructor].
  destruct (takeDigits cs) as [ds rest]. simpl in *. now constructor.
Qed.

Lemma digitsValue_nonneg (ds : list ascii) :
  Forall (fun c => isDigit c = true) ds -> (0 <= digitsValue ds)%Z.
Proof using Type.
  intros H. unfold digitsValue.
  assert (G : forall acc : Z,
             (0 <= acc)%Z ->
             (0 <= fold_left (fun acc c => 10 * acc + digitValue c) ds acc)%Z).
  { induction H as [| c ds Hc _ IH]; intros acc Hacc; simpl; [exact Hacc |].
    apply IH. pose proof (digitValue_nonneg c Hc). lia. }
  apply G. lia.
Qed.

(** A literal with a minus sign never has a positive value. *)
Lemma decimalValue_minus (intDigits fracDigits : list ascii) (exponent : Z) :
  Forall (fun c => isDigit c = true) intDigits ->
  Forall (fun c => isDigit c = true) fracDigits ->
  decimalValue (-1) intDigits fracDigits exponent <= 0.
Proof using Type.
  intros Hi Hf. unfold decimalValue.
  apply digitsValue_nonneg in Hi, Hf.
  assert (HA : 0 <= inject_Z (digitsValue intDigits)
                    + inject_Z (digitsValue fracDigits)
                      / inject_Z (10 ^ Z.of_nat (List.length fracDigits))).
  { assert (H1 : 0 <= inject_Z (digitsValue intDigits))
      by (change 0 with (inject_Z 0); now rewrite <- Zle_Qle).
    assert (H2 : 0 <= inject_Z (digitsValue fracDigits)
                      / inject_Z (10 ^ Z.of_nat (List.length fracDigits))).
    { apply Qle_shift_div_l.
      - change 0 with (inject_Z 0). rewrite <- Zlt_Qlt.
        apply Z.pow_pos_nonneg; lia.
      - rewrite Qmult_0_l. change 0 with (inject_Z 0).
        now rewrite <- Zle_Qle. }
    lra. }
  assert (HP : 0 <= Qpower 10 exponent)
    by (apply Qpower_0_le; discriminate).
  set (A := inject_Z (digitsValue intDigits)
            + inject_Z (digitsValue fracDigits)
              / inject_Z (10 ^ Z.of_nat (List.length fracDigits))) in *.
  set (P := Qpower 10 exponent) in *.
  assert (H : 0 <= A * P) by now apply Qmult_le_0_compat.
  assert (E : inject_Z (-1) * A * P == - (A * P))
    by (unfold inject_Z; ring).
  rewrite E. lra.
Qed.

Lemma parseFloat_blank (s : string) :
  skipWhiteSpace (list_ascii_of_string s) = [] -> parseFloat s = NaN.
Proof using Type.
  intros H. unfold parseFloat. rewrite H. reflexivity.
Qed.

Lemma parseFloat_minus (s : string) (rest : list ascii) :
  skipWhiteSpace (list_ascii_of_string s) = "-"%char :: rest ->
  gtZero (parseFloat s) = false.
Proof using Type.
  intros H. unfold parseFloat. rewrite H. cbn [takeSign].
  destruct (isPrefix (list_ascii_of_string "Infinity") rest);
    [reflexivity |].
  pose proof (takeDigits_isDigit rest) as Hint.
  destruct (takeDigits rest) as [intDigits cs2]. simpl in Hint.
  assert (Hneg : forall fracDigits e,
             Forall (fun c => isDigit c = true) fracDigits ->
             gtZero (Finite (decimalValue (-1) intDigits fracDigits e))
             = false).
  { intros fracDigits e Hf. simpl. apply negb_false_iff, Qle_bool_true.
    now apply decimalValue_minus. }
  destruct cs2 as [| c cs3].
  - destruct intDigits; [reflexivity | apply Hneg; constructor].
  - destruct (Ascii.eqb_spec c ".") as [-> | Hc].
    + pose proof (takeDigits_isDigit cs3) as Hfrac.
      destruct (takeDigits cs3) as [fracDigits cs4]. simpl in Hfrac.
      destruct intDigits, fracDigits; try reflexivity; now apply Hneg.
    + assert (E : match c :: cs3 with
                  | "."%char :: cs3' =>
                      let '(fracDigits, cs4) := takeDigits cs3' in
                      match intDigits, fracDigits with
                      | [], [] => NaN
                      | _, _ =>
                          Finite (decimalValue (-1) intDigits fracDigits
                                    (takeExponent cs4))
                      end
                  | _ =>
                      match intDigits with
                      | [] => NaN
                      | _ :: _ =>
                          Finite (decimalValue (-1) intDigits []
                                    (takeExponent (c :: cs3)))
                      end
                  end
                  = match intDigits with
                    | [] => NaN
                    | _ :: _ =>
                        Finite (decimalValue (-1) intDigits []
                                  (takeExponent (c :: cs3)))
                    end).
      { destruct c as [[] [] [] [] [] [] [] []]; try reflexivity.
        contradiction Hc. reflexivity. }
      rewrite E.
      destruct intDigits; [reflexivity | apply Hneg; constructor].
Qed.
End ParseFloatFacts.

(** X11.  An amount field that is blank, or whose text starts with a minus
    sign after any leading white space, is never submitted: the handler
    makes no call and leaves the form as it was. *)
Theorem X11_blank_or_negative_text_not_submitted (quarter : Z)
    (st : QuarterlyCalendar.CalendarState) :
  let cs :=
    JsNum.skipWhiteSpace
      (list_ascii_of_string (QuarterlyCalendar.paymentAmount st)) in
  cs = [] \/ (exists rest, cs = "-"%char :: rest) ->
  QuarterlyCalendar.handleMarkPaid quarter st = (st, None).
Proof.
  intros cs [H | [rest H]]; apply handleMarkPaid_ignores.
  - left. now rewrite (parseFloat_blank _ H).
  - right. exact (parseFloat_minus _ rest H).
Qed.

Lemma X11_blank_or_negative_text_not_submitted_witness :
  let st s := {| QuarterlyCalendar.editingQuarter := Some 3%Z;
                 QuarterlyCalendar.paymentAmount := s |} in
  QuarterlyCalendar.handleMarkPaid 3 (st "  -18900.00")
  = (st "  -18900.00", None)
  /\ QuarterlyCalendar.handleMarkPaid 3 (st "   ") = (st "   ", None).
Proof.
  intros st. split.
  - apply (X11_blank_or_negative_text_not_submitted 3 (st "  -18900.00")).
    right. eexists. reflexivity.
  - apply (X11_blank_or_negative_text_not_submitted 3 (st "   ")).
    left. reflexivity.
Defined.

(** ** The paystubs page *)

Section PaystubTotals.
Import PaystubsPage.

(** The accumulator after the fold, column by column. *)
Lemma fold_addPaystub (stubs : list Paystub) :
  forall acc : Totals,
    let t := fold_left addPaystub stubs acc in
    gross t == gross acc + columnSum gross_pay stubs
    /\ federal t == federal acc + columnSum federal_withheld stubs
    /\ state t == state acc + columnSum state_withheld stubs
    /\ fica t == fica acc + columnSum fica_withheld stubs
    /\ _401k t == _401k acc + columnSum _401k_contribution stubs
    /\ net t == net acc + columnSum net_pay stubs
    /\ rsu t
       == rsu acc + columnSum (fun ps => default 0 (rsu_income ps)) stubs.
Proof using Type.
  unfold columnSum.
  induction stubs as [| ps stubs IH]; intros acc; simpl.
  - repeat split; ring.
  - destruct (IH (addPaystub acc ps)) as (H1 & H2 & H3 & H4 & H5 & H6 & H7).
    simpl in *.
    rewrite H1, H2, H3, H4, H5, H6, H7. repeat split; ring.
Qed.

Lemma columnSum_nonneg (column : Paystub -> Q) (stubs : list Paystub) :
  Forall (fun ps => 0 <= column ps) stubs -> 0 <= columnSum column stubs.
Proof using Type.
  unfold columnSum. induction 1 as [| ps stubs H _ IH]; simpl.
  - apply Qle_refl.
  - lra.
Qed.
End PaystubTotals.

Lemma totals_columns (paystubs : option (list PaystubsPage.Paystub)) :
  let stubs := PaystubsPage.displayPaystubs paystubs in
  let t := PaystubsPage.totals paystubs in
  PaystubsPage.gross t == PaystubsPage.columnSum PaystubsPage.gross_pay stubs
  /\ PaystubsPage.federal t == PaystubsPage.columnSum PaystubsPage.federal_withheld stubs
  /\ PaystubsPage.state t == PaystubsPage.columnSum PaystubsPage.state_withheld stubs
  /\ PaystubsPage.fica t == PaystubsPage.columnSum PaystubsPage.fica_withheld stubs
  /\ PaystubsPage._401k t
     == PaystubsPage.columnSum PaystubsPage._401k_contribution stubs
  /\ PaystubsPage.net t == PaystubsPage.columnSum PaystubsPage.net_pay stubs
  /\ PaystubsPage.rsu t
     == PaystubsPage.columnSum (fun ps => default 0 (PaystubsPage.rsu_income ps)) stubs.
Proof.
  intros stubs t.
  destruct (fold_addPaystub stubs PaystubsPage.zeroTotals)
    as (H1 & H2 & H3 & H4 & H5 & H6 & H7).
  simpl in *. unfold t, PaystubsPage.totals, PaystubsPage.totalsOf.
  fold stubs.
  rewrite H1, H2, H3, H4, H5, H6, H7. repeat split; ring.
Qed.

Lemma columnSum_nonpositive (column : PaystubsPage.Paystub -> Q)
    (stubs : list PaystubsPage.Paystub) :
  Forall (fun ps => 0 <= column ps) stubs ->
  (PaystubsPage.columnSum column stubs <= 0
   <-> Forall (fun ps => column ps == 0) stubs).
Proof.
  unfold PaystubsPage.columnSum.
  induction 1 as [| ps stubs Hps Hall IH]; simpl.
  - split; [constructor | intros _; apply Qle_refl].
  - pose proof (columnSum_nonneg column stubs Hall) as Hsum.
    unfold PaystubsPage.columnSum in Hsum.
    split.
    + intros H. constructor; [lra |]. apply IH. lra.
    + intros H. inversion H as [| ? ? H0 Hrest]; subst.
      apply IH in Hrest. lra.
Qed.

(** X15.  When no paystub has a negative RSU income, the RSU cell of the
    totals row shows a dash exactly when no paystub has RSU income (none, or
    an income of 0); otherwise it shows the positive RSU total.  With a
    dash, the "YTD Gross Income" card is the gross total alone. *)
Theorem X15_rsu_total_shown
    (paystubs : option (list PaystubsPage.Paystub)) :
  Forall (fun ps => 0 <= default 0 (PaystubsPage.rsu_income ps))
    (PaystubsPage.displayPaystubs paystubs) ->
  let t := PaystubsPage.totals paystubs in
  (PaystubsPage.rsuTotalShown t = None
   <-> Forall (fun ps => default 0 (PaystubsPage.rsu_income ps) == 0)
         (PaystubsPage.displayPaystubs paystubs))
  /\ (forall a : Q,
        PaystubsPage.rsuTotalShown t = Some a ->
        a = PaystubsPage.rsu t /\ 0 < a)
  /\ (PaystubsPage.rsuTotalShown t = None ->
      PaystubsPage.ytdGrossShown t == PaystubsPage.gross t).
Proof.
  intros Hnonneg t.
  destruct (totals_columns paystubs) as (_ & _ & _ & _ & _ & _ & Hrsu).
  fold t in Hrsu.
  pose proof (columnSum_nonpositive _ _ Hnonneg) as Hzero.
  pose proof (columnSum_nonneg _ _ Hnonneg) as Hsum.
  unfold PaystubsPage.rsuTotalShown, PaystubsPage.ytdGrossShown.
  destruct (Qle_bool (PaystubsPage.rsu t) 0) eqn:E; simpl.
  - apply Qle_bool_true in E. split; [| split].
    + split; [intros _ | reflexivity]. apply Hzero. now rewrite <- Hrsu.
    + discriminate.
    + intros _. rewrite Hrsu in E |- *. lra.
  - apply Qle_bool_false in E. split; [| split].
    + split; [discriminate |]. intros H. apply Hzero in H.
      rewrite <- Hrsu in H. exfalso. apply (Qlt_not_le _ _ E H).
    + intros a H. injection H as <-. split; [reflexivity | exact E].
    + discriminate.
Qed.

(** The page's own paystubs: one of them has 25,000 of RSU income. *)
Lemma X15_rsu_total_shown_witness :
  PaystubsPage.rsuTotalShown (PaystubsPage.totals None) <> None
  /\ forall a : Q,
       PaystubsPage.rsuTotalShown (PaystubsPage.totals None) = Some a ->
       0 < a.
Proof.
  assert (Hnonneg : Forall
                      (fun ps => 0 <= default 0 (PaystubsPage.rsu_income ps))
                      (PaystubsPage.displayPaystubs None))
    by (repeat constructor; simpl; discriminate).
  destruct (X15_rsu_total_shown None Hnonneg) as (Hnone & Hsome & _).
  split.
  - intros H. apply Hnone in H.
    apply Forall_inv_tail, Forall_inv_tail, Forall_inv in H.
    vm_compute in H. discriminate.
  - intros a H. now apply Hsome.
Defined.

(** ** The dashboard and the chart, continued *)

(** X16.  The amount under the "Withheld vs Owed" chart is never negative:
    it is the absolute difference of the withholding and the projected
    liability.  When [refund_or_owed] is that difference, the caption and
    the dashboard card show the same amount. *)
Theorem X16_caption_amount (d : Api.TaxProjection) :
  Dashboard.amount (TaxProjectionChart.comparisonCaption d)
  == Qabs (Api.withheld_ytd d - Api.projected_liability d)
  /\ 0 <= Dashboard.amount (TaxProjectionChart.comparisonCaption d)
  /\ (Api.refund_or_owed d
      == Api.withheld_ytd d - Api.projected_liability d ->
      Dashboard.amount (TaxProjectionChart.comparisonCaption d)
      == Dashboard.amount (Dashboard.refundCard d)).
Proof.
  assert (H : Dashboard.amount (TaxProjectionChart.comparisonCaption d)
              == Qabs (Api.withheld_ytd d - Api.projected_liability d)).
  { unfold TaxProjectionChart.comparisonCaption.
    destruct (Qle_bool (Api.withheld_ytd d) (Api.projected_liability d))
      eqn:E; simpl.
    - apply Qle_bool_true in E.
      assert (Habs : Qabs (Api.withheld_ytd d - Api.projected_liability d)
                     == - (Api.withheld_ytd d - Api.projected_liability d))
        by (apply Qabs_neg; lra).
      rewrite Habs. ring.
    - apply Qle_bool_false in E.
      assert (Habs : Qabs (Api.withheld_ytd d - Api.projected_liability d)
                     == Api.withheld_ytd d - Api.projected_liability d)
        by (apply Qabs_pos; lra).
      rewrite Habs. reflexivity. }
  split; [exact H | split].
  - rewrite H. apply Qabs_nonneg.
  - intros Hr. rewrite H. unfold Dashboard.refundCard.
    cbn [Dashboard.amount]. apply Qabs_wd. now apply Qeq_sym.
Qed.

Lemma X16_caption_amount_witness :
  Dashboard.amount (TaxProjectionChart.comparisonCaption Dashboard.mockProjection)
  == Dashboard.amount (Dashboard.refundCard Dashboard.mockProjection).
Proof.
  apply (X16_caption_amount Dashboard.mockProjection). reflexivity.
Defined.

(** X17.  The "Consider increasing withholding" item is shown exactly when
    more than 5,000 is owed; the dashboard card then says "Additional Owed"
    with the amount the item names.  A refund never shows it. *)
Theorem X17_withholding_warning (d : Api.TaxProjection) :
  (DashboardAlerts.withholdingWarning d <> None
   <-> Api.refund_or_owed d < -5000)
  /\ (forall a : Q,
        DashboardAlerts.withholdingWarning d = Some a ->
        Dashboard.label (Dashboard.refundCard d) = "Additional Owed"
        /\ a = Dashboard.amount (Dashboard.refundCard d)
        /\ 5000 < a)
  /\ (0 <= Api.refund_or_owed d -> DashboardAlerts.withholdingWarning d = None).
Proof.
  unfold DashboardAlerts.withholdingWarning, Dashboard.showsWithholdingWarning.
  destruct (Qle_bool (-5000) (Api.refund_or_owed d)) eqn:E; simpl.
  - apply Qle_bool_true in E. split; [| split].
    + split; [congruence | intros H; exfalso; lra].
    + discriminate.
    + reflexivity.
  - apply Qle_bool_false in E. split; [| split].
    + split; [intros _; exact E | discriminate].
    + intros a H. injection H as <-.
      assert (Hneg : Api.refund_or_owed d < 0) by lra.
      destruct (refundCard_sign d) as [_ Howed].
      destruct (Howed Hneg) as [Hlabel _].
      split; [exact Hlabel | split; [reflexivity |]].
      assert (Habs : Qabs (Api.refund_or_owed d) == - Api.refund_or_owed d)
        by (apply Qabs_neg; lra).
      rewrite Habs. lra.
    + intros H. exfalso. lra.
Qed.

(** The projection the dashboard shows on its own owes 23,050. *)
Lemma X17_withholding_warning_witness :
  DashboardAlerts.withholdingWarning Dashboard.mockProjection <> None
  /\ Dashboard.label (Dashboard.refundCard Dashboard.mockProjection)
     = "Additional Owed"%string.
Proof.
  destruct (X17_withholding_warning Dashboard.mockProjection)
    as (Hshown & Hcard & _).
  split.
  - apply Hshown. reflexivity.
  - apply (Hcard 23050). reflexivity.
Defined.

(** ** The navigation bar *)

(** X18.  Whatever the current path, at most one item of the navigation bar
    is highlighted, and one is exactly when the path is the address of an
    item; a path below an item, such as [/rsu/grants], highlights none. *)
Theorem X18_one_active_nav_item (pathname : string) :
  (List.length (Navigation.activeItems pathname) <= 1)%nat
  /\ (List.length (Navigation.activeItems pathname) = 1%nat
      <-> In pathname (map Navigation.href Navigation.navItems))
  /\ Navigation.activeItems "/rsu/grants" = [].
Proof.
  unfold Navigation.activeItems, Navigation.navItems.
  rewrite !filter_cons, filter_nil. unfold Navigation.isActive. simpl.
  destruct (String.eqb_spec pathname "/") as [-> | H1];
    [vm_compute; repeat split; try lia; auto |].
  destruct (String.eqb_spec pathname "/paystubs") as [-> | H2];
    [vm_compute; repeat split; try lia; auto |].
  destruct (String.eqb_spec pathname "/rsu") as [-> | H3];
    [vm_compute; repeat split; try lia; auto 10 |].
  destruct (String.eqb_spec pathname "/401k") as [-> | H4];
    [vm_compute; repeat split; try lia; auto 10 |].
  destruct (String.eqb_spec pathname "/quarterly") as [-> | H5];
    [vm_compute; repeat split; try lia; auto 10 |].
  destruct (String.eqb_spec pathname "/settings") as [-> | H6];
    [vm_compute; repeat split; try lia; auto 10 |].
  rewrite !decide_False by discriminate. simpl.
  split; [lia | split; [| reflexivity]].
  split; [discriminate |].
  intros [H | [H | [H | [H | [H | [H | []]]]]]]; congruence.
Qed.

(** ** The upload components *)

Lemma fold_left_invariant {S E : Type} (step : S -> E -> S) (Inv : S -> Prop) :
  (forall s e, Inv s -> Inv (step s e)) ->
  forall (events : list E) (s : S), Inv s -> Inv (fold_left step events s).
Proof.
  intros Hstep events. induction events as [| e events IH]; intros s Hs.
  - exact Hs.
  - simpl. apply IH. now apply Hstep.
Qed.

Section UploaderFacts.
Import Uploader.

Lemma upload_ends_oneUnderWay (l : list File) :
  (S (List.length l) <= 1)%nat ->
  (false = true <-> l <> []) /\ (List.length l <= 1)%nat.
Proof using Type.
  intros Hlen. destruct l; simpl in *; [| lia].
  split; [split; [discriminate | congruence] | lia].
Qed.

Lemma paystubStep_allAccepted (r : Running) (ev : UploaderEvent) :
  allAccepted acceptsPdf r -> allAccepted acceptsPdf (paystubStep r ev).
Proof using Type.
  intros (Hfile & Hway & Hup).
  destruct r as [[dragging chosen uploading err] way up]; simpl in *.
  unfold allAccepted, paystubStep, startUpload, handleUploadStart,
    handleUploadFinish, handleDrop, handleFileSelect, clearFile,
    handleDragOver, handleDragLeave.
  destruct ev as [| | dropped | selected | | | outcome]; simpl;
    repeat case_match; simpl in *; simplify_eq;
    repeat split; try assumption; try discriminate;
    try (intros f' Hf'; simplify_eq; auto; fail);
    try (apply Forall_app; split; [assumption |];
         constructor; [auto | constructor]);
    try (now inversion Hway).
Qed.

Lemma rsuStep_allAccepted (r : Running) (ev : UploaderEvent) :
  allAccepted acceptsCsv r -> allAccepted acceptsCsv (rsuStep r ev).
Proof using Type.
  intros (Hfile & Hway & Hup).
  destruct r as [[dragging chosen uploading err] way up]; simpl in *.
  unfold allAccepted, rsuStep, startUpload, handleUploadStart,
    handleUploadFinish, handleDrop, handleFileSelect, clearFile,
    handleDragOver, handleDragLeave.
  destruct ev as [| | dropped | selected | | | outcome]; simpl;
    repeat case_match; simpl in *; simplify_eq;
    repeat split; try assumption; try discriminate;
    try (intros f' Hf'; simplify_eq; auto; fail);
    try (apply Forall_app; split; [assumption |];
         constructor; [auto | constructor]);
    try (now inversion Hway).
Qed.

Lemma paystubStep_oneUnderWay (r : Running) (ev : UploaderEvent) :
  oneUnderWay r -> oneUnderWay (paystubStep r ev).
Proof using Type.
  intros (Hiff & Hlen).
  destruct r as [[dragging chosen uploading err] way up]; simpl in *.
  unfold oneUnderWay, paystubStep, startUpload, handleUploadStart,
    handleUploadFinish, handleDrop, handleFileSelect, clearFile,
    handleDragOver, handleDragLeave.
  destruct ev as [| | dropped | selected | | | outcome]; simpl;
    repeat case_match; simpl in *; simplify_eq;
    try (split; [exact Hiff | exact Hlen]).
  - (* an upload starts: none was under way *)
    destruct way as [| w way'].
    + simpl. split; [split; [intros _; discriminate | reflexivity] | lia].
    + exfalso. assert (H : false = true) by (apply Hiff; discriminate).
      discriminate H.
  - exact (upload_ends_oneUnderWay _ Hlen).
  - exact (upload_ends_oneUnderWay _ Hlen).
  - exact (upload_ends_oneUnderWay _ Hlen).
Qed.

Lemma rsuStep_oneUnderWay (r : Running) (ev : UploaderEvent) :
  oneUnderWay r -> oneUnderWay (rsuStep r ev).
Proof using Type.
  intros (Hiff & Hlen).
  destruct r as [[dragging chosen uploading err] way up]; simpl in *.
  unfold oneUnderWay, rsuStep, startUpload, handleUploadStart,
    handleUploadFinish, handleDrop, handleFileSelect, clearFile,
    handleDragOver, handleDragLeave.
  destruct ev as [| | dropped | selected | | | outcome]; simpl;
    repeat case_match; simpl in *; simplify_eq;
    try (split; [exact Hiff | exact Hlen]).
  - (* an upload starts: none was under way *)
    destruct way as [| w way'].
    + simpl. split; [split; [intros _; discriminate | reflexivity] | lia].
    + exfalso. assert (H : false = true) by (apply Hiff; discriminate).
      discriminate H.
  - exact (upload_ends_oneUnderWay _ Hlen).
  - exact (upload_ends_oneUnderWay _ Hlen).
  - exact (upload_ends_oneUnderWay _ Hlen).
Qed.
End UploaderFacts.

Section EndsWith.
Import Uploader.

Lemma substring_all (s : string) : String.substring 0 (String.length s) s = s.
Proof using Type.
  induction s as [| c s IH]; simpl; [reflexivity | now rewrite IH].
Qed.

Lemma string_length_append (s1 s2 : string) :
  String.length (String.append s1 s2)
  = (String.length s1 + String.length s2)%nat.
Proof using Type.
  induction s1 as [| c s1 IH]; simpl; [reflexivity | now rewrite IH].
Qed.

Lemma substring_append_suffix (pre suf : string) :
  String.substring (String.length pre) (String.length suf)
    (String.append pre suf) = suf.
Proof using Type.
  induction pre as [| c pre IH]; simpl; [apply substring_all | exact IH].
Qed.

Lemma substring_split (s : string) :
  forall k : nat,
    (k <= String.length s)%nat ->
    s = String.append (String.substring 0 k s)
          (String.substring k (String.length s - k) s).
Proof using Type.
  induction s as [| c s IH]; intros k Hk; simpl in Hk.
  - replace k with 0%nat by lia. reflexivity.
  - destruct k as [| k]; simpl.
    + now rewrite substring_all.
    + change (String c s
              = String c
                  (String.append (String.substring 0 k s)
                     (String.substring k (String.length s - k) s))).
      f_equal. apply IH. lia.
Qed.

(** [endsWith] holds exactly of the strings that are some text followed by
    the suffix. *)
Lemma endsWith_spec (s suffix : string) :
  endsWith s suffix = true <-> exists stem, s = String.append stem suffix.
Proof using Type.
  unfold endsWith. rewrite andb_true_iff, Nat.leb_le, String.eqb_eq.
  split.
  - intros [Hlen Hsub].
    set (m := String.length suffix) in *.
    exists (String.substring 0 (String.length s - m) s).
    rewrite <- Hsub.
    etransitivity;
      [apply (substring_split s (String.length s - m)); lia |].
    do 2 f_equal. lia.
  - intros [stem ->]. rewrite string_length_append. split; [lia |].
    replace (String.length stem + String.length suffix
             - String.length suffix)%nat
      with (String.length stem) by lia.
    apply substring_append_suffix.
Qed.

Lemma acceptsPdf_spec (f : File) :
  acceptsPdf f = true <-> type f = "application/pdf"%string.
Proof using Type. apply String.eqb_eq. Qed.

Lemma acceptsCsv_spec (f : File) :
  acceptsCsv f = true
  <-> type f = "text/csv"%string
      \/ exists stem, name f = String.append stem ".csv".
Proof using Type.
  unfold acceptsCsv. rewrite orb_true_iff, String.eqb_eq, endsWith_spec.
  reflexivity.
Qed.
End EndsWith.

Lemma initialRunning_allAccepted (accepts : Uploader.File -> bool) :
  Uploader.allAccepted accepts Uploader.initialRunning.
Proof.
  split; [intros f H; discriminate | split; constructor].
Qed.

(** X19.  Whatever is dragged, dropped, selected and clicked, and however
    the uploads end, the paystub uploader only ever holds and only ever
    hands to the upload call files whose type is [application/pdf]. *)
Theorem X19_paystub_uploader_sends_only_pdf
    (events : list Uploader.UploaderEvent) :
  let r := Uploader.runPaystub events in
  Forall (fun f => Uploader.type f = "application/pdf"%string)
    (Uploader.uploaded r)
  /\ (forall f : Uploader.File,
        Uploader.file (Uploader.ui r) = Some f ->
        Uploader.type f = "application/pdf"%string).
Proof.
  intros r.
  destruct (fold_left_invariant Uploader.paystubStep
              (Uploader.allAccepted Uploader.acceptsPdf)
              paystubStep_allAccepted events Uploader.initialRunning
              (initialRunning_allAccepted _))
    as (Hfile & _ & Hup).
  split.
  - eapply Forall_impl; [exact Hup |].
    intros f Hf. now apply acceptsPdf_spec.
  - intros f Hf. now apply acceptsPdf_spec, Hfile.
Qed.

(** X20.  The RSU uploader only ever holds and hands to the upload call
    files whose type is [text/csv] or whose name ends with [.csv]; the name
    alone is enough, whatever the type. *)
Theorem X20_rsu_uploader_sends_only_csv
    (events : list Uploader.UploaderEvent) :
  let r := Uploader.runRsu events in
  let csv (f : Uploader.File) :=
    Uploader.type f = "text/csv"%string
    \/ exists stem, Uploader.name f = String.append stem ".csv" in
  Forall csv (Uploader.uploaded r)
  /\ (forall f : Uploader.File,
        Uploader.file (Uploader.ui r) = Some f -> csv f)
  /\ (forall (stem type : string),
        Uploader.uploaded
          (Uploader.runRsu
             [Uploader.Drop
                (Some {| Uploader.name := String.append stem ".csv";
                         Uploader.type := type |});
              Uploader.ClickUpload])
        = [ {| Uploader.name := String.append stem ".csv";
               Uploader.type := type |} ]).
Proof.
  intros r csv.
  destruct (fold_left_invariant Uploader.rsuStep
              (Uploader.allAccepted Uploader.acceptsCsv)
              rsuStep_allAccepted events Uploader.initialRunning
              (initialRunning_allAccepted _))
    as (Hfile & _ & Hup).
  split; [| split].
  - eapply Forall_impl; [exact Hup |].
    intros f Hf. now apply acceptsCsv_spec.
  - intros f Hf. now apply acceptsCsv_spec, Hfile.
  - intros stem type.
    set (f := {| Uploader.name := String.append stem ".csv";
                 Uploader.type := type |}).
    assert (Hacc : Uploader.acceptsCsv f = true).
    { apply acceptsCsv_spec. right. now exists stem. }
    unfold Uploader.runRsu. simpl. unfold Uploader.handleDrop.
    rewrite Hacc. reflexivity.
Qed.

(** X21.  In both upload components at most one upload is under way at any
    time, and the component shows its spinner exactly while one is: in
    either component a second click on the upload button starts
    nothing. *)
Theorem X21_one_upload_at_a_time (events : list Uploader.UploaderEvent) :
  let p := Uploader.runPaystub events in
  let r := Uploader.runRsu events in
  (List.length (Uploader.underWay p) <= 1)%nat
  /\ (Uploader.isUploading (Uploader.ui p) = true
      <-> Uploader.underWay p <> [])
  /\ (List.length (Uploader.underWay r) <= 1)%nat
  /\ (Uploader.isUploading (Uploader.ui r) = true
      <-> Uploader.underWay r <> [])
  /\ Uploader.paystubStep
       (Uploader.paystubStep p Uploader.ClickUpload) Uploader.ClickUpload
     = Uploader.paystubStep p Uploader.ClickUpload
  /\ Uploader.rsuStep
       (Uploader.rsuStep r Uploader.ClickUpload) Uploader.ClickUpload
     = Uploader.rsuStep r Uploader.ClickUpload.
Proof.
  intros p r.
  assert (Hinit : Uploader.oneUnderWay Uploader.initialRunning).
  { split; simpl; [split; [discriminate | congruence] | lia]. }
  destruct (fold_left_invariant Uploader.paystubStep Uploader.oneUnderWay
              paystubStep_oneUnderWay events _ Hinit) as [Hp1 Hp2].
  destruct (fold_left_invariant Uploader.rsuStep Uploader.oneUnderWay
              rsuStep_oneUnderWay events _ Hinit) as [Hr1 Hr2].
  fold (Uploader.runPaystub events) in Hp1, Hp2.
  fold (Uploader.runRsu events) in Hr1, Hr2. fold p in Hp1, Hp2.
  fold r in Hr1, Hr2.
  repeat (split; [assumption |]).
  split.
  - destruct p as [[dragging chosen uploading err] way up].
    unfold Uploader.paystubStep, Uploader.startUpload,
      Uploader.handleUploadStart. simpl.
    destruct chosen; [| reflexivity].
    destruct uploading; reflexivity.
  - destruct r as [[dragging chosen uploading err] way up].
    unfold Uploader.rsuStep, Uploader.startUpload,
      Uploader.handleUploadStart. simpl.
    destruct chosen; [| reflexivity].
    destruct uploading; reflexivity.
Qed.

(** ** The manual-entry form of the RSU page *)

Section RSUFormFacts.
Import RSUPage.
Variable toUpperCase : string -> string.
Variable parseInt : string -> JsNum.JsNumber.
Variable numberToString : Q -> string.

Let step := formStep toUpperCase numberToString.
Let run := runForm toUpperCase numberToString.

Lemma hidden_form_is_blank_step (st : PageState) (ev : FormEvent) :
  (showManualForm st = false ->
   editingEvent st = None /\ formData st = emptyForm) ->
  showManualForm (step st ev) = false ->
  editingEvent (step st ev) = None /\ formData (step st ev) = emptyForm.
Proof using Type.
  intros Hinv. unfold step, formStep, toggleManualForm.
  destruct ev as [event | | field value | |]; simpl.
  - discriminate.
  - destruct (showManualForm st) eqn:E; simpl; [now split | discriminate].
  - destruct (showManualForm st) eqn:E; simpl; [congruence |].
    intros _. now apply Hinv.
  - destruct (showManualForm st) eqn:E; simpl; [now split |].
    intros _. now apply Hinv.
  - now split.
Qed.

(** Typing into the shown form keeps it shown and does not change which
    event is being edited. *)
Lemma typing_keeps_mode (typed : list (Field * string)) :
  forall st : PageState,
    showManualForm st = true ->
    showManualForm (fold_left step (typing typed) st) = true
    /\ editingEvent (fold_left step (typing typed) st) = editingEvent st.
Proof using Type.
  induction typed as [| [field value] typed IH]; intros st Hshown.
  - now split.
  - change (fold_left step (typing ((field, value) :: typed)) st)
      with (fold_left step (typing typed)
              (step st (ChangeField field value))).
    assert (E : step st (ChangeField field value)
                = setField toUpperCase field value st)
      by (unfold step, formStep; now rewrite Hshown).
    rewrite E.
    destruct (IH (setField toUpperCase field value st)) as [H1 H2];
      [exact Hshown |].
    split; [exact H1 | exact H2].
Qed.
End RSUFormFacts.

Lemma hidden_form_is_blank
    (toUpperCase : string -> string) (numberToString : Q -> string)
    (events : list RSUPage.FormEvent) :
  RSUPage.showManualForm (RSUPage.runForm toUpperCase numberToString events)
  = false ->
  RSUPage.editingEvent (RSUPage.runForm toUpperCase numberToString events)
  = None
  /\ RSUPage.formData (RSUPage.runForm toUpperCase numberToString events)
     = RSUPage.emptyForm.
Proof.
  unfold RSUPage.runForm.
  apply (fold_left_invariant
           (RSUPage.formStep toUpperCase numberToString)
           (fun s => RSUPage.showManualForm s = false ->
                     RSUPage.editingEvent s = None
                     /\ RSUPage.formData s = RSUPage.emptyForm)).
  - intros s e. apply hidden_form_is_blank_step.
  - intros _. now split.
Qed.

(** X22.  Whatever is clicked and typed, while the manual-entry form is
    hidden no event is being edited and every field of the form is empty:
    the form always opens blank from the card's button. *)
Theorem X22_hidden_form_is_blank
    (toUpperCase : string -> string) (numberToString : Q -> string)
    (events : list RSUPage.FormEvent) :
  let st := RSUPage.runForm toUpperCase numberToString events in
  (RSUPage.showManualForm st = false ->
   RSUPage.editingEvent st = None /\ RSUPage.formData st = RSUPage.emptyForm)
  /\ (RSUPage.showManualForm st = false ->
      RSUPage.formStep toUpperCase numberToString st RSUPage.ClickToggle
      = {| RSUPage.showManualForm := true;
           RSUPage.editingEvent := None;
           RSUPage.formData := RSUPage.emptyForm |}).
Proof.
  intros st.
  pose proof (hidden_form_is_blank toUpperCase numberToString events)
    as Hinv.
  fold st in Hinv.
  split; [exact Hinv |].
  intros Hhidden. destruct (Hinv Hhidden) as [He Hf].
  unfold RSUPage.formStep, RSUPage.toggleManualForm. rewrite Hhidden.
  now rewrite He, Hf.
Qed.

Lemma X22_hidden_form_is_blank_witness :
  let event := {| RSUPage.id := "e1"; RSUPage.grant_id := "GRANT-001";
                  RSUPage.symbol := "GOOG"; RSUPage.grant_date := "2024-01-15";
                  RSUPage.vesting_date := "2024-03-15";
                  RSUPage.shares_vesting := 125;
                  RSUPage.fmv_at_vest := 140.5;
                  RSUPage.total_value := 17562.5 |} in
  RSUPage.formData
    (RSUPage.runForm (fun s => s) (fun _ => "125"%string)
       [RSUPage.ClickEdit event; RSUPage.ClickCancel])
  = RSUPage.emptyForm.
Proof.
  intros event.
  apply (X22_hidden_form_is_blank (fun s => s) (fun _ => "125"%string)
           [RSUPage.ClickEdit event; RSUPage.ClickCancel]).
  reflexivity.
Defined.

(** X23.  After the edit button of an event, whatever was done before and
    whatever is then typed into the form, submitting updates that very
    event and creates nothing; after the form was opened from the card's
    button, submitting creates an event. *)
Theorem X23_submit_updates_the_edited_event
    (toUpperCase : string -> string) (parseInt : string -> JsNum.JsNumber)
    (numberToString : Q -> string)
    (before : list RSUPage.FormEvent) (typed : list (RSUPage.Field * string)) :
  (forall event : RSUPage.RSUVestingEvent,
      let st := RSUPage.runForm toUpperCase numberToString
                  (before ++ RSUPage.ClickEdit event :: RSUPage.typing typed) in
      RSUPage.handleSubmit toUpperCase parseInt st
      = RSUPage.Update (RSUPage.id event)
          (RSUPage.eventDataOf toUpperCase parseInt (RSUPage.formData st)))
  /\ (RSUPage.showManualForm
        (RSUPage.runForm toUpperCase numberToString before) = false ->
      let st := RSUPage.runForm toUpperCase numberToString
                  (before ++ RSUPage.ClickToggle :: RSUPage.typing typed) in
      RSUPage.handleSubmit toUpperCase parseInt st
      = RSUPage.Create
          (RSUPage.eventDataOf toUpperCase parseInt (RSUPage.formData st))).
Proof.
  split.
  - intros event st. unfold st, RSUPage.runForm.
    rewrite fold_left_app. simpl.
    set (s0 := fold_left (RSUPage.formStep toUpperCase numberToString)
                 before RSUPage.initialState).
    destruct (typing_keeps_mode toUpperCase numberToString typed
                (RSUPage.handleEdit numberToString event s0) eq_refl)
      as [_ Hedit].
    unfold RSUPage.handleSubmit. rewrite Hedit. reflexivity.
  - intros Hhidden st.
    destruct (hidden_form_is_blank toUpperCase numberToString before Hhidden)
      as [He _].
    unfold st, RSUPage.runForm. rewrite fold_left_app. simpl.
    fold (RSUPage.runForm toUpperCase numberToString before).
    set (s0 := RSUPage.runForm toUpperCase numberToString before) in *.
    assert (Hshown : RSUPage.showManualForm
                       (RSUPage.toggleManualForm s0) = true)
      by (unfold RSUPage.toggleManualForm; now rewrite Hhidden).
    destruct (typing_keeps_mode toUpperCase numberToString typed
                (RSUPage.toggleManualForm s0) Hshown) as [_ Hedit].
    unfold RSUPage.handleSubmit. rewrite Hedit.
    unfold RSUPage.toggleManualForm. rewrite Hhidden. simpl.
    now rewrite He.
Qed.

(** Editing an event, changing its shares and submitting; and opening the
    blank form and submitting. *)
Lemma X23_submit_updates_the_edited_event_witness :
  let event := {| RSUPage.id := "e1"; RSUPage.grant_id := "GRANT-001";
                  RSUPage.symbol := "GOOG"; RSUPage.grant_date := "2024-01-15";
                  RSUPage.vesting_date := "2024-03-15";
                  RSUPage.shares_vesting := 125;
                  RSUPage.fmv_at_vest := 140.5;
                  RSUPage.total_value := 17562.5 |} in
  let upper (s : string) := s in
  let int (s : string) := JsNum.parseFloat s in
  let str (q : Q) := "125"%string in
  (exists data,
      RSUPage.handleSubmit upper int
        (RSUPage.runForm upper str
           [RSUPage.ClickEdit event;
            RSUPage.ChangeField RSUPage.SharesVesting "130"])
      = RSUPage.Update "e1" data)
  /\ (exists data,
         RSUPage.handleSubmit upper int
           (RSUPage.runForm upper str
              [RSUPage.ClickToggle;
               RSUPage.ChangeField RSUPage.GrantId "GRANT-002"])
         = RSUPage.Create data).
Proof.
  intros event upper int str. split.
  - eexists.
    apply (X23_submit_updates_the_edited_event upper int str []
             [(RSUPage.SharesVesting, "130"%string)]).
  - eexists.
    apply (X23_submit_updates_the_edited_event upper int str []
             [(RSUPage.GrantId, "GRANT-002"%string)]).
    reflexivity.
Defined.
